(** * URL checker (main.py): the probe, the worker-pool coordinator, the
      JSON extractor and the spreadsheet exporter, as Rocq functions.

    Python values are dynamically typed, so URLs and labels are [pyval]s;
    exceptions are values of an error monad [res]; the world outside the
    program (the network, the user-agent generator, the order in which the
    pool's futures are yielded, the decoded contents of a file, the Excel
    writer) is passed in explicitly. *)

From Stdlib Require Import ZArith String Ascii List Bool Lia Permutation.
From Stdlib Require Import DecimalString.
From Stdlib Require Import Floats.SpecFloat.
Import ListNotations.

Notation "s1 +++ s2" := (String.append s1 s2)
  (at level 60, right associativity) : string_scope.

Local Open Scope string_scope.
Local Open Scope Z_scope.
Local Open Scope list_scope.

Set Warnings "-register-all".

(* ================================================================== *)
(** ** The fragment of Python the program runs on *)

(** What [json.load] produces, which is also what flows through the program
    as URLs and labels.  Dictionaries keep their keys in insertion order. *)
Inductive pyval : Type :=
| PNone
| PBool (b : bool)
| PInt (z : Z)
| PFloat (f : spec_float)
| PStr (s : string)
| PList (items : list pyval)
| PDict (entries : list (string * pyval)).

(** [bool(v)], the test behind [if url]. *)
Definition truthy (v : pyval) : bool :=
  match v with
  | PNone => false
  | PBool b => b
  | PInt z => negb (z =? 0)
  | PFloat (S754_zero _) => false
  | PFloat _ => true
  | PStr s => negb (s =? "")%string
  | PList [] => false
  | PList (_ :: _) => true
  | PDict [] => false
  | PDict (_ :: _) => true
  end.

Definition type_name (v : pyval) : string :=
  match v with
  | PNone => "NoneType"
  | PBool _ => "bool"
  | PInt _ => "int"
  | PFloat _ => "float"
  | PStr _ => "str"
  | PList _ => "list"
  | PDict _ => "dict"
  end.

(** [str(n)] for an [int]: what an f-string prints for a status code. *)
Definition str_int (z : Z) : string := NilZero.string_of_int (Z.to_int z).

Definition str_nat (n : nat) : string := str_int (Z.of_nat n).

(** The exception classes the program names or can meet.  [Exception]
    stands for every other subclass of Python's [Exception] (ValueError,
    UnicodeError, RuntimeError, ...).  The calls modelled here raise nothing
    outside [Exception] (KeyboardInterrupt, SystemExit). *)
Inductive pyclass : Type :=
| Exception
| RequestException        (* requests.exceptions.RequestException *)
| RequestsTimeout         (* requests.exceptions.Timeout *)
| ValueError
| JSONDecodeError         (* json.JSONDecodeError *)
| TypeError
| AttributeError.

Definition pyclass_eqb (c d : pyclass) : bool :=
  match c, d with
  | Exception, Exception
  | RequestException, RequestException
  | RequestsTimeout, RequestsTimeout
  | ValueError, ValueError
  | JSONDecodeError, JSONDecodeError
  | TypeError, TypeError
  | AttributeError, AttributeError => true
  | _, _ => false
  end.

(** [issubclass c d]: every class derives from [Exception],
    [requests.exceptions.Timeout] derives from [RequestException] and
    [json.JSONDecodeError] from [ValueError]. *)
Definition issubclass (c d : pyclass) : bool :=
  match d with
  | Exception => true
  | RequestException =>
      match c with RequestException | RequestsTimeout => true | _ => false end
  | ValueError =>
      match c with ValueError | JSONDecodeError => true | _ => false end
  | _ => pyclass_eqb c d
  end.

(** A raised exception: its class and [str(e)]. *)
Record exn : Type := mk_exn { exn_class : pyclass; exn_str : string }.

Definition isinstance (e : exn) (c : pyclass) : bool :=
  issubclass (exn_class e) c.

(** A computation either returns or raises. *)
Inductive res (A : Type) : Type :=
| Ok (a : A)
| Raise (e : exn).
Arguments Ok {A} a.
Arguments Raise {A} e.

Definition bind {A B : Type} (m : res A) (k : A -> res B) : res B :=
  match m with
  | Ok a => k a
  | Raise e => Raise e
  end.

Notation "x <- m ;; k" := (bind m (fun x => k))
  (at level 61, m at next level, right associativity).

(** [try: body  except c1 ...: h1  except c2 ...: h2 ...]: the first clause
    whose class the exception is an instance of handles it; an exception no
    clause matches keeps propagating. *)
Fixpoint handle {A : Type} (e : exn) (clauses : list (pyclass * (exn -> res A)))
  : res A :=
  match clauses with
  | [] => Raise e
  | (c, h) :: rest => if isinstance e c then h e else handle e rest
  end.

Definition try_except {A : Type} (body : res A)
           (clauses : list (pyclass * (exn -> res A))) : res A :=
  match body with
  | Ok a => Ok a
  | Raise e => handle e clauses
  end.

(** [d.get(key, default)] on a dictionary's entries. *)
Fixpoint dict_get (entries : list (string * pyval)) (key : string)
         (default : pyval) : pyval :=
  match entries with
  | [] => default
  | (k, v) :: rest => if (k =? key)%string then v else dict_get rest key default
  end.

(** [o.get(key, default)]: only dictionaries have the method. *)
Definition py_get (o : pyval) (key : string) (default : pyval) : res pyval :=
  match o with
  | PDict entries => Ok (dict_get entries key default)
  | _ => Raise (mk_exn AttributeError
                  ("'" +++ type_name o +++ "' object has no attribute 'get'"))
  end.

Fixpoint chars (s : string) : list pyval :=
  match s with
  | EmptyString => []
  | String a rest => PStr (String a EmptyString) :: chars rest
  end.

(** What [for x in o] iterates over: the items of a list, the keys of a
    dictionary, the characters of a string; anything else is not iterable. *)
Definition py_iter (o : pyval) : res (list pyval) :=
  match o with
  | PList items => Ok items
  | PDict entries => Ok (map (fun kv => PStr (fst kv)) entries)
  | PStr s => Ok (chars s)
  | _ => Raise (mk_exn TypeError
                  ("'" +++ type_name o +++ "' object is not iterable"))
  end.

(* ================================================================== *)
(** ** The collaborators outside the program *)

(** What [session.get(url, headers=, timeout=, allow_redirects=)] is given. *)
Record Request : Type := mk_request {
  req_url : pyval;
  req_headers : list (string * string);
  req_timeout : Z;
  req_allow_redirects : bool
}.

Record Response : Type := mk_response { status_code : Z }.

(** The network: the outcome of the request issued by the [k]-th submitted
    probe, a response or a raised exception. *)
Record World : Type := mk_world {
  session_get : nat -> Request -> res Response
}.

(** fake_useragent's generator: the string [ua.random] yields at the
    [k]-th probe. *)
Record UserAgent : Type := mk_UserAgent { random : nat -> string }.

(** The module-level [ua]: a [UserAgent] instance, or the one-entry
    dictionary [{"User-Agent": s}] installed when the constructor raised. *)
Inductive ua_global : Type :=
| UA_instance (u : UserAgent)
| UA_dict (user_agent : string).

Definition fallback_user_agent : string :=
  "Mozilla/5.0 (Windows NT 10.0; Win64; x64) AppleWebKit/537.36 (KHTML, like Gecko) Chrome/58.0.3029.110 Safari/537.3".

(** Lines 11-17: [created] is [None] when [UserAgent()] raised. *)
Definition init_ua (created : option UserAgent) : ua_global :=
  match created with
  | Some u => UA_instance u
  | None => UA_dict fallback_user_agent
  end.

(* ================================================================== *)
(** ** URLChecker *)

Record URLChecker : Type := mk_URLChecker {
  timeout : Z;
  max_workers : Z
}.

(** [URLChecker()] with its default arguments. *)
Definition default_URLChecker : URLChecker := mk_URLChecker 5 5.

Definition check_url_headers (ua : ua_global) (k : nat) : list (string * string) :=
  [ ("User-Agent", match ua with
                   | UA_instance u => random u k
                   | UA_dict user_agent => user_agent
                   end);
    ("Referer", "https://www.google.com/") ].

Definition check_url (self : URLChecker) (ua : ua_global) (w : World)
           (k : nat) (url : pyval) : res string :=
  let headers := check_url_headers ua k in
  try_except
    (response <- session_get w k
                   (mk_request url headers (timeout self) false) ;;
     if status_code response =? 200 then
       Ok "Working"
     else if (300 <=? status_code response) && (status_code response <? 400) then
       Ok ("Redirect - Status Code: " +++ str_int (status_code response))
     else
       Ok ("Not Working - Status Code: " +++ str_int (status_code response)))
    [ (RequestsTimeout, fun _ => Ok "Timeout");
      (RequestException, fun e => Ok ("Failed - " +++ exn_str e)) ].

(** A future of the pool: its identity (the order of submission) and what
    [future.result()] does once the worker has run, return the status or
    re-raise what the call raised. *)
Record Future : Type := mk_Future {
  fut_id : nat;
  fut_result : res string
}.

(** Line 47, the dictionary [{executor.submit(self.check_url, url): url
    for url in url_list if url}], in insertion order; [k] counts the
    submissions made so far. *)
Fixpoint submit_all (self : URLChecker) (ua : ua_global) (w : World)
         (k : nat) (url_list : list pyval) : list (Future * pyval) :=
  match url_list with
  | [] => []
  | url :: rest =>
      if truthy url then
        (mk_Future k (check_url self ua w k url), url)
          :: submit_all self ua w (S k) rest
      else
        submit_all self ua w k rest
  end.

Fixpoint remove_nth {A : Type} (j : nat) (l : list A) : list A :=
  match j, l with
  | _, [] => []
  | O, _ :: rest => rest
  | S j', x :: rest => x :: remove_nth j' rest
  end.

(** The order in which [as_completed] yields the futures: those already
    finished when it is called come first, in the order of a set, the
    others as they finish.  Whenever futures are still to be yielded, which
    one comes next is read off [sched] (a choice beyond the remaining ones
    wraps around, a missing one is 0).  Every [sched] gives an order and
    every order has a [sched].  The threads of the pool only decide which
    orders can occur; what is proved of [process_urls] holds for all of
    them. *)
Fixpoint completion (fuel : nat) (sched : list nat) (pending : list Future)
  : list Future :=
  match fuel, pending with
  | S fuel', first :: _ =>
      let j := Nat.modulo (hd 0%nat sched) (length pending) in
      nth j pending first
        :: completion fuel' (tl sched) (remove_nth j pending)
  | _, _ => []
  end.

(** [as_completed(fs)]: each future of [fs] once, in the order [sched]
    stands for. *)
Definition as_completed (sched : list nat) (fs : list Future) : list Future :=
  completion (length fs) sched fs.

Definition progress_message (done : Z) (url_list : list pyval) : string :=
  "Processed " +++ str_int done +++ " out of "
    +++ str_nat (length url_list) +++ " URLs".

(** Lines 48-57, the loop over [enumerate(as_completed(futures))];
    [written] is what [st.write] has been given so far. *)
Fixpoint collect (url_list : list pyval) (i : Z) (completed : list Future)
         (statuses written : list string) : res (list string * list string) :=
  match completed with
  | [] => Ok (statuses, written)
  | future :: rest =>
      status <- try_except (fut_result future)
                  [ (Exception, fun e => Ok ("Failed - " +++ exn_str e)) ] ;;
      let statuses := statuses ++ [status] in
      let written :=
        if ((i + 1) mod 10 =? 0) || (i =? Z.of_nat (length url_list) - 1)
        then written ++ [progress_message (i + 1) url_list]
        else written in
      collect url_list (i + 1) rest statuses written
  end.

(** Line 46, [ThreadPoolExecutor(max_workers=n)]: the constructor refuses
    a pool without workers. *)
Definition ThreadPoolExecutor (n : Z) : res unit :=
  if n <=? 0
  then Raise (mk_exn ValueError "max_workers must be greater than 0")
  else Ok tt.

(** [process_urls]: the statuses it returns, paired with the progress lines
    it wrote on the way. *)
Definition process_urls (self : URLChecker) (ua : ua_global) (w : World)
           (sched : list nat) (url_list : list pyval)
  : res (list string * list string) :=
  executor <- ThreadPoolExecutor (max_workers self) ;;
  let futures := submit_all self ua w 0 url_list in
  collect url_list 0 (as_completed sched (map fst futures)) [] [].

(* ================================================================== *)
(** ** JSONReader *)

Record JSONReader : Type := mk_JSONReader { json_file : string }.

Definition url_lists : Type :=
  (list pyval * list pyval * list pyval * list pyval)%type.

(** The two inner loops (lines 80-84 and 87-91) differ only in the key they
    read: ["src"] for images, ["attachmentLocation"] for attachments. *)
Fixpoint read_entries (key : string) (model : pyval) (entries : list pyval)
         (urls models : list pyval) : res (list pyval * list pyval) :=
  match entries with
  | [] => Ok (urls, models)
  | entry :: rest =>
      url <- py_get entry key PNone ;;
      if truthy url then
        read_entries key model rest (urls ++ [url]) (models ++ [model])
      else
        read_entries key model rest urls models
  end.

(** Lines 77-93, the loop over the decoded document. *)
Fixpoint read_models (data : list pyval)
         (image_urls image_models attachment_urls attachment_models : list pyval)
  : res url_lists :=
  match data with
  | [] => Ok (image_models, image_urls, attachment_models, attachment_urls)
  | json_model :: rest =>
      general <- py_get json_model "general" (PDict []) ;;
      model <- py_get general "model" PNone ;;
      images <- py_get json_model "images" (PList []) ;;
      images <- py_iter images ;;
      im <- read_entries "src" model images image_urls image_models ;;
      attachments <- py_get json_model "attachments" (PList []) ;;
      attachments <- py_iter attachments ;;
      att <- read_entries "attachmentLocation" model attachments
               attachment_urls attachment_models ;;
      read_models rest (fst im) (snd im) (fst att) (snd att)
  end.

(** [read_urls]; [load path] stands for opening the file and [json.load]:
    the decoded document, or the exception either of them raised. *)
Definition read_urls (self : JSONReader) (load : string -> res pyval)
  : res url_lists :=
  match load (json_file self) with
  | Raise e =>
      if isinstance e JSONDecodeError then Ok ([], [], [], []) else Raise e
  | Ok data =>
      models <- py_iter data ;;
      read_models models [] [] [] []
  end.

(* ================================================================== *)
(** ** ExcelSaver *)

Definition row : Type := (pyval * pyval * string)%type.

(** [pd.DataFrame({"Model_name": a, "URL": b, "Status": c})]: one row per
    index; pandas refuses columns of different lengths. *)
Definition DataFrame (models urls : list pyval) (statuses : list string)
  : res (list row) :=
  if (length models =? length urls)%nat && (length urls =? length statuses)%nat
  then Ok (combine (combine models urls) statuses)
  else Raise (mk_exn ValueError "All arrays must be of the same length").

Record ExcelSaver : Type := mk_ExcelSaver { output_file : string }.

(** Lines 103-105, the [with pd.ExcelWriter(...)] block with its two
    [to_excel] calls, are pandas and openpyxl at work: given the output
    file and the named data frames they write the workbook or raise (a
    cell they refuse, a sheet too long, a file they cannot create).  What
    the cells look like in the file is theirs too and is not modelled. *)
Definition excel_writer : Type :=
  string -> list (string * list row) -> res unit.

(** [save_to_excel]: builds the two data frames, then has them written;
    returns the frames handed to the writer, sheet name and rows. *)
Definition save_to_excel (write : excel_writer) (self : ExcelSaver)
           (image_models image_urls : list pyval) (image_statuses : list string)
           (attachment_models attachment_urls : list pyval)
           (attachment_statuses : list string)
  : res (list (string * list row)) :=
  df_images <- DataFrame image_models image_urls image_statuses ;;
  df_attachments <- DataFrame attachment_models attachment_urls
                      attachment_statuses ;;
  let sheets := [ ("image_status", df_images); ("pdf_status", df_attachments) ] in
  done <- write (output_file self) sheets ;;
  Ok sheets.

(** Line 155; [stem path] stands for
    [os.path.splitext(os.path.basename(path))[0]]. *)
Definition output_file_name (stem : string -> string) (json_file : string)
  : string :=
  stem json_file +++ "_results.xlsx".

(** Lines 139-157, one uploaded file: read, probe both batches, export.
    [None] when the file holds no URL and is skipped. *)
Definition check_file (url_checker : URLChecker) (ua : ua_global)
           (load : string -> res pyval) (stem : string -> string)
           (write : excel_writer)
           (w_images w_attachments : World) (sched_images sched_attachments : list nat)
           (path : string) : res (option (list (string * list row))) :=
  lists <- read_urls (mk_JSONReader path) load ;;
  let '(image_models, image_urls, attachment_models, attachment_urls) := lists in
  if negb (truthy (PList image_urls)) && negb (truthy (PList attachment_urls)) then
    Ok None
  else
    image <- process_urls url_checker ua w_images sched_images image_urls ;;
    attachment <- process_urls url_checker ua w_attachments sched_attachments
                    attachment_urls ;;
    book <- save_to_excel write (mk_ExcelSaver (output_file_name stem path))
              image_models image_urls (fst image)
              attachment_models attachment_urls (fst attachment) ;;
    Ok (Some book).

(* ================================================================== *)
(** ** The script: one run of "Run URL Check" *)

(** What the outside supplies while one file is processed: the network as
    each of the two batches meets it, the order in which each batch's
    futures are yielded, and what the Excel writer does. *)
Record batch_run : Type := mk_batch_run {
  run_images : World;
  run_attachments : World;
  run_sched_images : list nat;
  run_sched_attachments : list nat;
  run_write : excel_writer
}.

(** Lines 135-159, the loop over [json_files] with the checker of line 131:
    [results] pairs each appended output file name with the frames
    written under it; [n] counts the files seen so far. *)
Fixpoint check_files (ua : ua_global) (load : string -> res pyval)
         (stem : string -> string) (runs : nat -> batch_run) (n : nat)
         (json_files : list string)
         (results : list (string * list (string * list row)))
  : res (list (string * list (string * list row))) :=
  match json_files with
  | [] => Ok results
  | json_file :: rest =>
      outcome <- check_file (mk_URLChecker 5 5) ua load stem
                   (run_write (runs n))
                   (run_images (runs n)) (run_attachments (runs n))
                   (run_sched_images (runs n)) (run_sched_attachments (runs n))
                   json_file ;;
      match outcome with
      | None => check_files ua load stem runs (S n) rest results
      | Some book =>
          check_files ua load stem runs (S n) rest
                      (results ++ [(output_file_name stem json_file, book)])
      end
  end.

(** Lines 162-165: the names zipped into all_results.zip, or [None] when
    [results] is empty and no archive is made. *)
Definition all_results_zip (results : list (string * list (string * list row)))
  : option (list string) :=
  match results with
  | [] => None
  | _ :: _ => Some (map fst results)
  end.

(* ================================================================== *)
(** ** The vocabulary of the specification *)

(** The classification a status string stands for. *)
Inductive StatusValue : Type :=
| Working
| Redirect (code : Z)
| NotWorking (code : Z)
| Timeout
| Failed (reason : string).

(** The string the program uses for each classification. *)
Definition status_string (s : StatusValue) : string :=
  match s with
  | Working => "Working"
  | Redirect code => "Redirect - Status Code: " +++ str_int code
  | NotWorking code => "Not Working - Status Code: " +++ str_int code
  | Timeout => "Timeout"
  | Failed reason => "Failed - " +++ reason
  end.

(** The request a probe sends: the URL, the two headers, the checker's
    timeout, and [allow_redirects=False]. *)
Definition probe_request (self : URLChecker) (ua : ua_global) (k : nat)
           (url : pyval) : Request :=
  mk_request url (check_url_headers ua k) (timeout self) false.

(** The status the coordinator records for a completed future. *)
Definition recorded_status (f : Future) : string :=
  match fut_result f with
  | Ok status => status
  | Raise e => status_string (Failed (exn_str e))
  end.

(** Example collaborators used for the concrete runs below.  The network
    has a host x with a few paths; the host name a..b has an empty label,
    on which urllib3 raises its LocationParseError (a ValueError, not a
    RequestException) and requests passes it on; the host name .x is
    refused by requests itself with InvalidURL; nothing else answers. *)
Definition example_world : World :=
  mk_world (fun _ request =>
    match req_url request with
    | PStr "http://x/200" => Ok (mk_response 200)
    | PStr "http://x/204" => Ok (mk_response 204)
    | PStr "http://x/301" => Ok (mk_response 301)
    | PStr "http://x/404" => Ok (mk_response 404)
    | PStr "http://x/slow" => Raise (mk_exn RequestsTimeout "Read timed out.")
    | PStr "http://x/refused" =>
        Raise (mk_exn RequestException "Connection refused")
    | PStr "http://a..b/" =>
        Raise (mk_exn ValueError
                 "Failed to parse: 'a..b', label empty or too long")
    | PStr "http://.x/" =>
        Raise (mk_exn RequestException "URL has an invalid label.")
    | _ => Raise (mk_exn RequestException "Connection refused")
    end).

(** openpyxl's test for a character it refuses in a cell. *)
Definition illegal_character (c : ascii) : bool :=
  let n := nat_of_ascii c in
  ((n <=? 8) || ((11 <=? n) && (n <=? 12)) || ((14 <=? n) && (n <=? 31)))%nat.

Fixpoint has_illegal_character (s : string) : bool :=
  match s with
  | EmptyString => false
  | String c rest => illegal_character c || has_illegal_character rest
  end.

Definition cell_refused (v : pyval) : bool :=
  match v with PStr s => has_illegal_character s | _ => false end.

Definition row_refused (r : row) : bool :=
  cell_refused (fst (fst r)) || cell_refused (snd (fst r))
  || has_illegal_character (snd r).

(** An example writer: it refuses a sheet of more rows than a worksheet
    holds and a text cell with a control character, and writes the rest. *)
Definition example_write : excel_writer :=
  fun _ sheets =>
    if existsb (fun sheet => 1048576 <=? Z.of_nat (length (snd sheet))) sheets then
      Raise (mk_exn ValueError "This sheet is too large!")
    else if existsb (fun sheet => existsb row_refused (snd sheet)) sheets then
      Raise (mk_exn Exception "cannot be used in worksheets.")
    else Ok tt.

Definition example_stem (path : string) : string :=
  match path with
  | "m1.json" | "temp/m1.json" => "m1"
  | _ => "other"
  end.

Definition example_document : pyval :=
  PList [ PDict [ ("general", PDict [ ("model", PStr "m1") ]);
                  ("images", PList [ PDict [ ("src", PStr "http://x/200") ];
                                     PDict [ ("src", PStr "http://x/404") ];
                                     PDict [ ("src", PStr "") ];
                                     PDict [] ]) ] ].

(** The test of line 56 at loop index [i]. *)
Definition notifies (url_list : list pyval) (i : Z) : bool :=
  ((i + 1) mod 10 =? 0) || (i =? Z.of_nat (length url_list) - 1).

(** The progress lines of [n] loop iterations starting at index [i]. *)
Fixpoint progress_lines (url_list : list pyval) (i : Z) (n : nat) : list string :=
  match n with
  | O => []
  | S n' =>
      (if notifies url_list i then [progress_message (i + 1) url_list] else [])
        ++ progress_lines url_list (i + 1) n'
  end.

(** The shape of document the extractor is written for: a list of objects,
    in each of which "general", when present, is an object and "images" and
    "attachments", when present, are lists of objects. *)
Definition is_dict (v : pyval) : bool :=
  match v with PDict _ => true | _ => false end.

Definition list_of_dicts (v : pyval) : bool :=
  match v with PList items => forallb is_dict items | _ => false end.

Definition model_shape (json_model : pyval) : bool :=
  match json_model with
  | PDict fields =>
      is_dict (dict_get fields "general" (PDict []))
      && list_of_dicts (dict_get fields "images" (PList []))
      && list_of_dicts (dict_get fields "attachments" (PList []))
  | _ => false
  end.

Definition expected_shape (data : pyval) : bool :=
  match data with PList models => forallb model_shape models | _ => false end.

(** The (label, URL) pairs a document of that shape holds under the given
    keys, entries without a URL left out. *)
Definition member (o : pyval) (key : string) (default : pyval) : pyval :=
  match o with PDict fields => dict_get fields key default | _ => default end.

Definition items_of (v : pyval) : list pyval :=
  match v with PList items => items | _ => [] end.

Definition kept_urls (url_key : string) (entries : list pyval) : list pyval :=
  filter truthy (map (fun entry => member entry url_key PNone) entries).

Definition label_of (json_model : pyval) : pyval :=
  member (member json_model "general" (PDict [])) "model" PNone.

Definition extracted (list_key url_key : string) (models : list pyval)
  : list (pyval * pyval) :=
  flat_map (fun json_model =>
              map (fun url => (label_of json_model, url))
                  (kept_urls url_key
                             (items_of (member json_model list_key (PList [])))))
           models.

(** Labels and URLs go together and every URL passed the [if url] test. *)
Definition paired (urls models : list pyval) : Prop :=
  length models = length urls /\ Forall (fun url => truthy url = true) urls.

Ltac bind_inv H :=
  match type of H with
  | bind ?m _ = Ok _ =>
      let E := fresh "E" in
      destruct m eqn:E; cbn [bind] in H; [|discriminate H]
  end.

(** The status a probe leaves in the result list: what [check_url]
    returned for the [k]-th submitted URL, or Failed when it raised. *)
Definition probe_status (self : URLChecker) (ua : ua_global) (w : World)
           (k : nat) (url : pyval) : string :=
  recorded_status (mk_Future k (check_url self ua w k url)).

(** The numbers of completed tasks after which line 56 writes progress,
    among the first [n]. *)
Definition progress_counts (url_list : list pyval) (n : nat) : list Z :=
  filter (fun c => (c mod 10 =? 0) || (c =? Z.of_nat (length url_list)))
         (map Z.of_nat (seq 1 n)).

(** What [read_urls] can walk without raising: something whose iteration
    yields only objects (a list of objects, or an empty string or an empty
    object, which yield nothing). *)
Definition iterates_dicts (v : pyval) : bool :=
  match v with
  | PList items => forallb is_dict items
  | PStr s => (s =? "")%string
  | PDict [] => true
  | _ => false
  end.

Definition model_accepted (json_model : pyval) : bool :=
  match json_model with
  | PDict fields =>
      is_dict (dict_get fields "general" (PDict []))
      && iterates_dicts (dict_get fields "images" (PList []))
      && iterates_dicts (dict_get fields "attachments" (PList []))
  | _ => false
  end.

Definition document_accepted (data : pyval) : bool :=
  match data with
  | PList models => forallb model_accepted models
  | PStr s => (s =? "")%string
  | PDict [] => true
  | _ => false
  end.

(** Whether a file contributes a workbook: [read_urls] found a URL in it. *)
Definition has_urls (load : string -> res pyval) (json_file : string) : bool :=
  match read_urls (mk_JSONReader json_file) load with
  | Ok (_, image_urls, _, attachment_urls) =>
      truthy (PList image_urls) || truthy (PList attachment_urls)
  | Raise _ => false
  end.

(** The three columns of a sheet: Model_name, URL, Status. *)
Definition columns (rows : list row) : list pyval * list pyval * list string :=
  (map (fun r => fst (fst r)) rows, map (fun r => snd (fst r)) rows,
   map snd rows).

(** Equality of two header lists, name by name and value by value. *)
Fixpoint headers_eqb (a b : list (string * string)) : bool :=
  match a, b with
  | [], [] => true
  | (name, value) :: a', (name', value') :: b' =>
      (name =? name')%string && (value =? value')%string && headers_eqb a' b'
  | _, _ => false
  end.

(** A server that answers 200 to a request carrying exactly the headers
    [expected] and 403 to every other request. *)
Definition header_checking_world (expected : list (string * string)) : World :=
  mk_world (fun _ request =>
    if headers_eqb (req_headers request) expected
    then Ok (mk_response 200)
    else Ok (mk_response 403)).

(** What processing the [n]-th uploaded file does (the body of the loop of
    lines 137-159 up to the export), with the checker of line 131. *)
Definition file_outcome (ua : ua_global) (load : string -> res pyval)
           (stem : string -> string) (runs : nat -> batch_run) (n : nat)
           (json_file : string) : res (option (list (string * list row))) :=
  check_file (mk_URLChecker 5 5) ua load stem (run_write (runs n))
             (run_images (runs n)) (run_attachments (runs n))
             (run_sched_images (runs n)) (run_sched_attachments (runs n))
             json_file.

(* ================================================================== *)
(** ** The probe, [check_url] *)

Section Probe.

Variables (self : URLChecker) (ua : ua_global) (w : World) (k : nat)
          (url : pyval).

Lemma check_url_response (code : Z) :
  session_get w k (probe_request self ua k url) = Ok (mk_response code) ->
  check_url self ua w k url =
  Ok (status_string
        (if code =? 200 then Working
         else if (300 <=? code) && (code <? 400) then Redirect code
         else NotWorking code)).
Proof.
  unfold probe_request, check_url. intros ->. cbn [bind try_except status_code].
  destruct (code =? 200); [reflexivity|].
  destruct ((300 <=? code) && (code <? 400)); reflexivity.
Qed.

Lemma check_url_raised (e : exn) :
  session_get w k (probe_request self ua k url) = Raise e ->
  check_url self ua w k url =
  if isinstance e RequestsTimeout then Ok (status_string Timeout)
  else if isinstance e RequestException then Ok (status_string (Failed (exn_str e)))
  else Raise e.
Proof.
  unfold probe_request, check_url. intros ->. reflexivity.
Qed.

End Probe.

Lemma Ok_inj {A : Type} (a b : A) : Ok a = Ok b -> a = b.
Proof. intros H. injection H. trivial. Qed.

Lemma not_working_string_distinct (code : Z) :
  status_string (NotWorking code) <> status_string Working /\
  forall code', status_string (NotWorking code) <> status_string (Redirect code').
Proof. split; [|intro code']; cbn; discriminate. Qed.

(** C2. A probe sends its GET with redirects not followed, and classifies
    the outcome: status 200 is Working; a status in 300..399 is Redirect
    with that status; any other status is NotWorking with that status; a
    timeout exception is Timeout; any other exception of the requests
    library is Failed with the exception's text. *)
Theorem check_url_classification :
  forall (self : URLChecker) (ua : ua_global) (w : World) (k : nat) (url : pyval),
    let request := mk_request url (check_url_headers ua k) (timeout self) false in
    (session_get w k request = Ok (mk_response 200) ->
     check_url self ua w k url = Ok (status_string Working))
    /\ (forall code, session_get w k request = Ok (mk_response code) ->
          300 <= code <= 399 ->
          check_url self ua w k url = Ok (status_string (Redirect code)))
    /\ (forall code, session_get w k request = Ok (mk_response code) ->
          code <> 200 -> ~ (300 <= code <= 399) ->
          check_url self ua w k url = Ok (status_string (NotWorking code)))
    /\ (forall e, session_get w k request = Raise e ->
          isinstance e RequestsTimeout = true ->
          check_url self ua w k url = Ok (status_string Timeout))
    /\ (forall e, session_get w k request = Raise e ->
          isinstance e RequestsTimeout = false ->
          isinstance e RequestException = true ->
          check_url self ua w k url = Ok (status_string (Failed (exn_str e)))).
Proof.
  intros self ua w k url request.
  refine (conj _ (conj _ (conj _ (conj _ _)))).
  - intros H. apply check_url_response in H. exact H.
  - intros code H Hc. rewrite (check_url_response _ _ _ _ _ code H).
    replace (code =? 200) with false by (symmetry; apply Z.eqb_neq; lia).
    replace ((300 <=? code) && (code <? 400)) with true; [reflexivity|].
    symmetry; apply andb_true_iff; split; [apply Z.leb_le|apply Z.ltb_lt]; lia.
  - intros code H Hc Hr. rewrite (check_url_response _ _ _ _ _ code H).
    replace (code =? 200) with false by (symmetry; apply Z.eqb_neq; lia).
    replace ((300 <=? code) && (code <? 400)) with false; [reflexivity|].
    symmetry; apply andb_false_iff.
    destruct (Z.leb_spec 300 code); [right; apply Z.ltb_ge; lia|left; reflexivity].
  - intros e H Ht. rewrite (check_url_raised _ _ _ _ _ e H), Ht. reflexivity.
  - intros e H Ht Hr. rewrite (check_url_raised _ _ _ _ _ e H), Ht, Hr. reflexivity.
Qed.

Lemma check_url_classification_witness :
  check_url default_URLChecker (init_ua None) example_world 0 (PStr "http://x/200")
    = Ok "Working"
  /\ check_url default_URLChecker (init_ua None) example_world 0 (PStr "http://x/301")
    = Ok "Redirect - Status Code: 301"
  /\ check_url default_URLChecker (init_ua None) example_world 0 (PStr "http://x/404")
    = Ok "Not Working - Status Code: 404"
  /\ check_url default_URLChecker (init_ua None) example_world 0 (PStr "http://x/slow")
    = Ok "Timeout"
  /\ check_url default_URLChecker (init_ua None) example_world 0 (PStr "http://x/refused")
    = Ok "Failed - Connection refused".
Proof.
  refine (conj _ (conj _ (conj _ (conj _ _)))).
  - apply (check_url_classification default_URLChecker (init_ua None)
             example_world 0 (PStr "http://x/200")). reflexivity.
  - apply (proj1 (proj2 (check_url_classification default_URLChecker (init_ua None)
             example_world 0 (PStr "http://x/301"))) 301); [reflexivity|lia].
  - apply (proj1 (proj2 (proj2 (check_url_classification default_URLChecker
             (init_ua None) example_world 0 (PStr "http://x/404")))) 404);
      [reflexivity|lia|lia].
  - apply (proj1 (proj2 (proj2 (proj2 (check_url_classification default_URLChecker
             (init_ua None) example_world 0 (PStr "http://x/slow")))))
             (mk_exn RequestsTimeout "Read timed out.")); reflexivity.
  - apply (proj2 (proj2 (proj2 (proj2 (check_url_classification default_URLChecker
             (init_ua None) example_world 0 (PStr "http://x/refused")))))
             (mk_exn RequestException "Connection refused")); reflexivity.
Defined.

(** C4 as stated fails: when the request raises an exception that is not a
    [RequestException], neither [except] clause matches and [check_url]
    raises it to its caller instead of returning a status.  A host name
    with an empty label, as in http://a..b/, does that. *)
Lemma check_url_propagates_other_exceptions :
  ~ (exists status : string,
       check_url default_URLChecker (init_ua None) example_world 0
                 (PStr "http://a..b/") = Ok status).
Proof. intros [status H]. vm_compute in H. discriminate H. Qed.

(** C4, amended. Whenever the request returns a response or raises an
    exception of the requests library ([RequestException], which includes
    its timeouts), [check_url] returns a status and raises nothing; any
    other exception raised by the request leaves [check_url] unchanged. *)
Theorem check_url_contains_request_exceptions :
  forall (self : URLChecker) (ua : ua_global) (w : World) (k : nat) (url : pyval),
    (forall response,
        session_get w k (probe_request self ua k url) = Ok response ->
        exists s : StatusValue, check_url self ua w k url = Ok (status_string s))
    /\ (forall e,
        session_get w k (probe_request self ua k url) = Raise e ->
        isinstance e RequestException = true ->
        exists s : StatusValue, check_url self ua w k url = Ok (status_string s))
    /\ (forall e,
        session_get w k (probe_request self ua k url) = Raise e ->
        isinstance e RequestException = false ->
        check_url self ua w k url = Raise e).
Proof.
  intros self ua w k url. refine (conj _ (conj _ _)).
  - intros [code] H. eexists. exact (check_url_response _ _ _ _ _ code H).
  - intros e H Hr. rewrite (check_url_raised _ _ _ _ _ e H), Hr.
    destruct (isinstance e RequestsTimeout); eexists; reflexivity.
  - intros e H Hr. rewrite (check_url_raised _ _ _ _ _ e H), Hr.
    destruct e as [[] msg]; try discriminate Hr; reflexivity.
Qed.

Lemma check_url_contains_request_exceptions_witness :
  (exists s : StatusValue,
      check_url default_URLChecker (init_ua None) example_world 0
                (PStr "http://x/404") = Ok (status_string s))
  /\ (exists s : StatusValue,
      check_url default_URLChecker (init_ua None) example_world 0
                (PStr "http://x/refused") = Ok (status_string s))
  /\ check_url default_URLChecker (init_ua None) example_world 0
               (PStr "http://a..b/")
     = Raise (mk_exn ValueError
                "Failed to parse: 'a..b', label empty or too long").
Proof.
  refine (conj _ (conj _ _)).
  - apply (proj1 (check_url_contains_request_exceptions default_URLChecker
             (init_ua None) example_world 0 (PStr "http://x/404"))
             (mk_response 404)).
    reflexivity.
  - apply (proj1 (proj2 (check_url_contains_request_exceptions default_URLChecker
             (init_ua None) example_world 0 (PStr "http://x/refused")))
             (mk_exn RequestException "Connection refused")); reflexivity.
  - apply (proj2 (proj2 (check_url_contains_request_exceptions default_URLChecker
             (init_ua None) example_world 0 (PStr "http://a..b/")))
             (mk_exn ValueError
                "Failed to parse: 'a..b', label empty or too long"));
      reflexivity.
Defined.

(** C7 as stated fails: a 204 response is a 2xx response, and the probe
    reports it as NotWorking(204). *)
Lemma not_working_on_204 :
  ~ (check_url default_URLChecker (init_ua None) example_world 0
               (PStr "http://x/204") = Ok (status_string (NotWorking 204))
     <-> ~ (200 <= 204 <= 299) /\ ~ (300 <= 204 <= 399)).
Proof.
  intros [H _]. assert (Hc : ~ (200 <= 204 <= 299) /\ ~ (300 <= 204 <= 399)).
  { apply H. reflexivity. }
  destruct Hc as [Hc _]. apply Hc. lia.
Qed.

(** C7, amended. For a probe that receives a response, the result is
    NotWorking(code) exactly when the status code is not 200 and not in
    300..399. *)
Theorem not_working_iff :
  forall (self : URLChecker) (ua : ua_global) (w : World) (k : nat) (url : pyval)
         (code : Z),
    session_get w k (probe_request self ua k url) = Ok (mk_response code) ->
    (check_url self ua w k url = Ok (status_string (NotWorking code))
     <-> code <> 200 /\ ~ (300 <= code <= 399)).
Proof.
  intros self ua w k url code H.
  rewrite (check_url_response _ _ _ _ _ code H).
  destruct (Z.eqb_spec code 200) as [E|E].
  - split; [intros Heq|intros [Hc _]; contradiction].
    exfalso. apply (proj1 (not_working_string_distinct code)).
    symmetry. exact (Ok_inj _ _ Heq).
  - destruct (Z.leb_spec 300 code) as [L|L]; destruct (Z.ltb_spec code 400) as [U|U];
      cbn [andb].
    + split; [intros Heq|intros [_ Hr]; exfalso; apply Hr; lia].
      exfalso. apply (proj2 (not_working_string_distinct code) code).
      symmetry. exact (Ok_inj _ _ Heq).
    + split; [intros _; split; [exact E|lia]|reflexivity].
    + split; [intros _; split; [exact E|lia]|reflexivity].
    + split; [intros _; split; [exact E|lia]|reflexivity].
Qed.

Lemma not_working_iff_witness :
  check_url default_URLChecker (init_ua None) example_world 0
            (PStr "http://x/204") = Ok (status_string (NotWorking 204))
  <-> 204 <> 200 /\ ~ (300 <= 204 <= 399).
Proof.
  apply (not_working_iff default_URLChecker (init_ua None) example_world 0
           (PStr "http://x/204") 204).
  reflexivity.
Defined.

Lemma headers_eqb_eq (a b : list (string * string)) :
  headers_eqb a b = true <-> a = b.
Proof.
  revert b. induction a as [|[name value] a IH]; intros [|[name' value'] b];
    cbn [headers_eqb]; try (split; [intros H; discriminate H|discriminate]).
  - split; reflexivity.
  - rewrite !andb_true_iff, !String.eqb_eq, IH. split.
    + intros [[-> ->] ->]. reflexivity.
    + intros H. injection H as -> -> ->. repeat split.
Qed.

(** C8. The request a probe sends carries exactly two headers.  When the
    identity provider failed at initialization they are, for every probe,
    the one fixed user-agent string and the fixed referer: a server that
    answers 200 only to these headers makes the probe report Working, and
    a server expecting any other headers makes it report Not Working.
    When initialization succeeded the same holds with the string the
    provider yields for that probe in place of the fixed one. *)
Theorem identity_headers :
  (forall (self : URLChecker) (k : nat) (url : pyval)
          (expected : list (string * string)),
      check_url self (init_ua None) (header_checking_world expected) k url
      = Ok (if headers_eqb [ ("User-Agent", fallback_user_agent);
                             ("Referer", "https://www.google.com/") ]
                           expected
            then "Working"
            else "Not Working - Status Code: 403"))
  /\ (forall (self : URLChecker) (u : UserAgent) (k : nat) (url : pyval)
             (expected : list (string * string)),
      check_url self (init_ua (Some u)) (header_checking_world expected) k url
      = Ok (if headers_eqb [ ("User-Agent", random u k);
                             ("Referer", "https://www.google.com/") ]
                           expected
            then "Working"
            else "Not Working - Status Code: 403"))
  /\ (forall a b : list (string * string), headers_eqb a b = true <-> a = b).
Proof.
  refine (conj _ (conj _ headers_eqb_eq)).
  - intros self k url expected.
    unfold check_url, check_url_headers, init_ua, header_checking_world.
    cbn [session_get req_headers].
    destruct (headers_eqb _ expected); reflexivity.
  - intros self u k url expected.
    unfold check_url, check_url_headers, init_ua, header_checking_world.
    cbn [session_get req_headers].
    destruct (headers_eqb _ expected); reflexivity.
Qed.

(** The two cases of C8 on concrete servers: one expecting the fallback
    headers, one expecting a user agent the probe does not send. *)
Example identity_headers_on_servers :
  check_url default_URLChecker (init_ua None)
            (header_checking_world
               [ ("User-Agent", fallback_user_agent);
                 ("Referer", "https://www.google.com/") ])
            7 (PStr "http://x/200")
  = Ok "Working"
  /\ check_url default_URLChecker (init_ua None)
               (header_checking_world
                  [ ("User-Agent", "python-requests/2.31.0");
                    ("Referer", "https://www.google.com/") ])
               7 (PStr "http://x/200")
     = Ok "Not Working - Status Code: 403"
  /\ check_url default_URLChecker
               (init_ua (Some (mk_UserAgent (fun k => "agent-" +++ str_nat k))))
               (header_checking_world
                  [ ("User-Agent", "agent-7");
                    ("Referer", "https://www.google.com/") ])
               7 (PStr "http://x/200")
     = Ok "Working".
Proof. refine (conj _ (conj _ _)); vm_compute; reflexivity. Qed.

(* ================================================================== *)
(** ** The order in which futures are yielded *)

Section Completion.

Context {A : Type}.

Lemma remove_nth_length (j : nat) (l : list A) :
  (j < length l)%nat -> length (remove_nth j l) = pred (length l).
Proof.
  revert j. induction l as [|x l IH]; intros j Hj; cbn in *; [lia|].
  destruct j as [|j]; [reflexivity|].
  cbn. rewrite IH by lia. destruct l; cbn in *; lia.
Qed.

Lemma nth_remove_nth_perm (j : nat) (l : list A) (d : A) :
  (j < length l)%nat -> Permutation (nth j l d :: remove_nth j l) l.
Proof.
  revert j. induction l as [|x l IH]; intros j Hj; cbn in *; [lia|].
  destruct j as [|j]; [reflexivity|].
  etransitivity; [apply perm_swap|].
  apply perm_skip. apply IH. lia.
Qed.

End Completion.

Lemma completion_step (fuel : nat) (sched : list nat) (first : Future)
      (pending : list Future) :
  completion (S fuel) sched (first :: pending) =
  let j := Nat.modulo (hd 0%nat sched) (S (length pending)) in
  nth j (first :: pending) first
    :: completion fuel (tl sched) (remove_nth j (first :: pending)).
Proof. reflexivity. Qed.

Lemma completion_perm (fuel : nat) :
  forall (sched : list nat) (pending : list Future),
    length pending = fuel ->
    Permutation (completion fuel sched pending) pending.
Proof.
  induction fuel as [|fuel IH]; intros sched pending Hlen.
  - destruct pending; [constructor|discriminate].
  - destruct pending as [|first pending]; [discriminate|].
    rewrite completion_step. cbv zeta.
    set (j := Nat.modulo (hd 0%nat sched) (S (length pending))).
    assert (Hj : (j < length (first :: pending))%nat).
    { subst j. cbn [length]. apply Nat.mod_upper_bound. lia. }
    etransitivity; [|apply (nth_remove_nth_perm j _ first Hj)].
    apply perm_skip. apply IH.
    rewrite remove_nth_length by exact Hj. cbn in *. lia.
Qed.

(** Whatever the scheduler chooses, [as_completed] yields every future
    once. *)
Lemma as_completed_perm (sched : list nat) (fs : list Future) :
  Permutation (as_completed sched fs) fs.
Proof. apply completion_perm. reflexivity. Qed.

(** Every order of the futures is yielded for some [sched]. *)
Lemma as_completed_any_order (order : list Future) :
  forall fs : list Future,
    Permutation order fs -> exists sched, as_completed sched fs = order.
Proof.
  unfold as_completed.
  induction order as [|x order IH]; intros fs Hperm.
  - apply Permutation_nil in Hperm. subst fs. exists []. reflexivity.
  - assert (Hin : In x fs) by (apply (Permutation_in _ Hperm); left; reflexivity).
    destruct (In_nth _ _ x Hin) as [j [Hj Hnth]].
    destruct fs as [|first fs]; [destruct Hin|].
    assert (Hrest : Permutation order (remove_nth j (first :: fs))).
    { apply Permutation_cons_inv with (a := x).
      etransitivity; [exact Hperm|].
      symmetry. rewrite <- Hnth at 1. apply nth_remove_nth_perm. exact Hj. }
    destruct (IH _ Hrest) as [sched Hsched].
    exists (j :: sched).
    cbn [length]. rewrite completion_step. cbv zeta. cbn [hd tl].
    cbn [length] in Hj. rewrite (Nat.mod_small j _ Hj).
    rewrite (nth_indep _ first x) by exact Hj. rewrite Hnth. f_equal.
    rewrite remove_nth_length in Hsched by exact Hj. exact Hsched.
Qed.

(** With no choice expressed, futures are yielded in the order of
    submission. *)
Lemma as_completed_in_submission_order (fs : list Future) :
  as_completed [] fs = fs.
Proof.
  unfold as_completed. induction fs as [|first fs IH]; [reflexivity|].
  cbn [length]. rewrite completion_step. cbv zeta. cbn [hd tl].
  rewrite Nat.Div0.mod_0_l. cbn [nth remove_nth]. f_equal. exact IH.
Qed.

(* ================================================================== *)
(** ** The coordinator, [process_urls] *)

Lemma future_result_caught (future : Future) :
  try_except (fut_result future)
             [ (Exception, fun e => Ok ("Failed - " +++ exn_str e)) ]
  = Ok (recorded_status future).
Proof. destruct future as [id [status|e]]; reflexivity. Qed.

Lemma collect_spec (url_list : list pyval) (completed : list Future) :
  forall (i : Z) (statuses written : list string),
    collect url_list i completed statuses written =
    Ok (statuses ++ map recorded_status completed,
        written ++ progress_lines url_list i (length completed)).
Proof.
  induction completed as [|future rest IH]; intros i statuses written.
  - cbn. rewrite !app_nil_r. reflexivity.
  - cbn [collect]. rewrite future_result_caught. cbn [bind].
    rewrite IH. cbn [map length progress_lines]. unfold notifies.
    f_equal. f_equal.
    + rewrite <- app_assoc. reflexivity.
    + destruct (((i + 1) mod 10 =? 0) || (i =? Z.of_nat (length url_list) - 1)).
      * rewrite <- app_assoc. reflexivity.
      * reflexivity.
Qed.

Lemma submit_all_urls (self : URLChecker) (ua : ua_global) (w : World)
      (url_list : list pyval) :
  forall k : nat,
    map snd (submit_all self ua w k url_list) = filter truthy url_list.
Proof.
  induction url_list as [|url rest IH]; intros k; cbn; [reflexivity|].
  destruct (truthy url); cbn; rewrite IH; reflexivity.
Qed.

Lemma submit_all_length (self : URLChecker) (ua : ua_global) (w : World)
      (k : nat) (url_list : list pyval) :
  length (submit_all self ua w k url_list) = length (filter truthy url_list).
Proof.
  rewrite <- (submit_all_urls self ua w url_list k). symmetry. apply length_map.
Qed.

Lemma ThreadPoolExecutor_workers (n : Z) :
  0 < n -> ThreadPoolExecutor n = Ok tt.
Proof.
  intros Hn. unfold ThreadPoolExecutor.
  destruct (Z.leb_spec n 0); [lia|reflexivity].
Qed.

(** Without a worker the pool is not built and [process_urls] raises
    before anything is submitted, whatever the list. *)
Lemma process_urls_without_workers (self : URLChecker) (ua : ua_global)
      (w : World) (sched : list nat) (url_list : list pyval) :
  max_workers self <= 0 ->
  process_urls self ua w sched url_list
  = Raise (mk_exn ValueError "max_workers must be greater than 0").
Proof.
  intros Hn. unfold process_urls, ThreadPoolExecutor.
  destruct (Z.leb_spec (max_workers self) 0); [reflexivity|lia].
Qed.

(** What [process_urls] returns and writes, in closed form. *)
Lemma process_urls_spec (self : URLChecker) (ua : ua_global) (w : World)
      (sched : list nat) (url_list : list pyval) :
  0 < max_workers self ->
  let completed := as_completed sched (map fst (submit_all self ua w 0 url_list)) in
  process_urls self ua w sched url_list =
  Ok (map recorded_status completed,
      progress_lines url_list 0 (length completed)).
Proof.
  intros Hn. unfold process_urls. rewrite (ThreadPoolExecutor_workers _ Hn).
  cbn [bind]. cbv zeta. rewrite collect_spec. reflexivity.
Qed.

Lemma recorded_status_related (fs : list Future) :
  Forall2 (fun future status =>
             match fut_result future with
             | Ok s => status = s
             | Raise e => status = status_string (Failed (exn_str e))
             end)
          fs (map recorded_status fs).
Proof.
  induction fs as [|[id [s|e]] fs IH]; constructor; try exact IH; reflexivity.
Qed.

Lemma filter_truthy_nonempty (url_list : list pyval) :
  Forall (fun url => url <> PStr "" /\ url <> PNone) (filter truthy url_list).
Proof.
  apply Forall_forall. intros url Hin. apply filter_In in Hin.
  destruct Hin as [_ Ht]. split; intros ->; discriminate Ht.
Qed.

(** The final loop index notifies exactly when the number of completed
    tasks is a multiple of 10 or equals the length of the whole input
    list, filtered entries included. *)
Lemma notifies_final_iff (url_list : list pyval) (n : nat) :
  notifies url_list (Z.of_nat n) = true
  <-> (Z.of_nat (S n) mod 10 = 0 \/ S n = length url_list).
Proof.
  unfold notifies. rewrite orb_true_iff, Z.eqb_eq, Z.eqb_eq.
  replace (Z.of_nat n + 1) with (Z.of_nat (S n)) by lia.
  split; (intros [H|H]; [left; exact H|right; lia]).
Qed.

(** C1, on the code: statuses come back in the order [as_completed]
    yields the futures.  With two
    image URLs of which the second is yielded first, the status list starts
    with the second URL's status, while the labels and URLs stay in
    submission order, so the exported row of the first URL (which answers
    200, Working) carries the status of the second. *)
Theorem statuses_follow_completion_order :
  process_urls default_URLChecker (init_ua None) example_world [1%nat]
               [PStr "http://x/200"; PStr "http://x/404"]
  = Ok (["Not Working - Status Code: 404"; "Working"],
        ["Processed 2 out of 2 URLs"])
  /\ check_url default_URLChecker (init_ua None) example_world 0
               (PStr "http://x/200") = Ok "Working"
  /\ check_file default_URLChecker (init_ua None) (fun _ => Ok example_document)
                example_stem example_write
                example_world example_world [1%nat] [] "m1.json"
     = Ok (Some [ ("image_status",
                   [ (PStr "m1", PStr "http://x/200",
                      "Not Working - Status Code: 404");
                     (PStr "m1", PStr "http://x/404", "Working") ]);
                  ("pdf_status", []) ]).
Proof. refine (conj _ (conj _ _)); vm_compute; reflexivity. Qed.

(** When the futures are yielded in the order they were submitted, the
    statuses line up with the submitted URLs. *)
Lemma process_urls_in_submission_order (self : URLChecker) (ua : ua_global)
      (w : World) (url_list : list pyval) :
  0 < max_workers self ->
  exists written,
    process_urls self ua w [] url_list =
    Ok (map recorded_status (map fst (submit_all self ua w 0 url_list)), written).
Proof.
  intros Hn. eexists. rewrite (process_urls_spec _ _ _ _ _ Hn). cbv zeta.
  rewrite as_completed_in_submission_order. reflexivity.
Qed.

(** C3. With a pool of at least one worker, processing a batch returns
    exactly one status per task whose URL is non-empty: only those tasks
    are dispatched, none of them is the empty string or None, and the
    returned statuses are the dispatched tasks' results, each once. *)
Theorem process_urls_one_status_per_nonempty_url :
  forall (self : URLChecker) (ua : ua_global) (w : World) (sched : list nat)
         (url_list : list pyval),
    0 < max_workers self ->
    let futures := submit_all self ua w 0 url_list in
    exists statuses written,
      process_urls self ua w sched url_list = Ok (statuses, written)
      /\ length statuses = length (filter truthy url_list)
      /\ map snd futures = filter truthy url_list
      /\ Forall (fun url => url <> PStr "" /\ url <> PNone) (map snd futures)
      /\ Permutation statuses (map recorded_status (map fst futures)).
Proof.
  intros self ua w sched url_list Hn futures.
  eexists. eexists. split; [apply (process_urls_spec _ _ _ _ _ Hn)|]. cbv zeta.
  fold futures.
  assert (Hperm : Permutation (as_completed sched (map fst futures))
                              (map fst futures)) by apply as_completed_perm.
  refine (conj _ (conj _ (conj _ _))).
  - rewrite length_map, (Permutation_length Hperm), length_map.
    apply submit_all_length.
  - apply submit_all_urls.
  - unfold futures. rewrite submit_all_urls. apply filter_truthy_nonempty.
  - apply Permutation_map. exact Hperm.
Qed.

Lemma process_urls_one_status_per_nonempty_url_witness :
  exists statuses written,
    process_urls default_URLChecker (init_ua None) example_world [1%nat]
                 [PStr "http://x/200"; PStr ""; PStr "http://x/404"; PNone]
    = Ok (statuses, written)
    /\ length statuses
       = length (filter truthy
                   [PStr "http://x/200"; PStr ""; PStr "http://x/404"; PNone])
    /\ map snd (submit_all default_URLChecker (init_ua None) example_world 0
                  [PStr "http://x/200"; PStr ""; PStr "http://x/404"; PNone])
       = filter truthy
           [PStr "http://x/200"; PStr ""; PStr "http://x/404"; PNone]
    /\ Forall (fun url => url <> PStr "" /\ url <> PNone)
              (map snd (submit_all default_URLChecker (init_ua None)
                          example_world 0
                          [PStr "http://x/200"; PStr ""; PStr "http://x/404";
                           PNone]))
    /\ Permutation statuses
         (map recorded_status
            (map fst (submit_all default_URLChecker (init_ua None)
                        example_world 0
                        [PStr "http://x/200"; PStr ""; PStr "http://x/404";
                         PNone]))).
Proof.
  apply (process_urls_one_status_per_nonempty_url default_URLChecker
           (init_ua None) example_world [1%nat]
           [PStr "http://x/200"; PStr ""; PStr "http://x/404"; PNone]).
  reflexivity.
Defined.

(** C5. Once the pool exists, whatever a worker's call raised, the
    coordinator returns normally: in the order the futures are yielded, a
    task whose result is a status contributes that status and a task whose
    result raises contributes Failed with the exception's text, so every
    task of the batch is collected. *)
Theorem process_urls_records_failed_and_continues :
  forall (self : URLChecker) (ua : ua_global) (w : World) (sched : list nat)
         (url_list : list pyval),
    0 < max_workers self ->
    exists statuses written,
      process_urls self ua w sched url_list = Ok (statuses, written)
      /\ Forall2 (fun future status =>
                    match fut_result future with
                    | Ok s => status = s
                    | Raise e => status = status_string (Failed (exn_str e))
                    end)
                 (as_completed sched (map fst (submit_all self ua w 0 url_list)))
                 statuses.
Proof.
  intros self ua w sched url_list Hn.
  eexists. eexists. split; [apply (process_urls_spec _ _ _ _ _ Hn)|].
  apply recorded_status_related.
Qed.

Lemma process_urls_records_failed_and_continues_witness :
  exists statuses written,
    process_urls default_URLChecker (init_ua None) example_world [2%nat; 1%nat]
                 [PStr "http://x/200"; PStr "http://a..b/"; PStr "http://x/301"]
    = Ok (statuses, written)
    /\ Forall2 (fun future status =>
                  match fut_result future with
                  | Ok s => status = s
                  | Raise e => status = status_string (Failed (exn_str e))
                  end)
               (as_completed [2%nat; 1%nat]
                  (map fst (submit_all default_URLChecker (init_ua None)
                              example_world 0
                              [PStr "http://x/200"; PStr "http://a..b/";
                               PStr "http://x/301"])))
               statuses.
Proof.
  apply (process_urls_records_failed_and_continues default_URLChecker
           (init_ua None) example_world [2%nat; 1%nat]
           [PStr "http://x/200"; PStr "http://a..b/"; PStr "http://x/301"]).
  reflexivity.
Defined.

(** The same batch, evaluated: its middle probe raises out of
    [check_url], the other two are collected all the same. *)
Example process_urls_with_a_raising_probe :
  check_url default_URLChecker (init_ua None) example_world 1
            (PStr "http://a..b/")
  = Raise (mk_exn ValueError
             "Failed to parse: 'a..b', label empty or too long")
  /\ process_urls default_URLChecker (init_ua None) example_world
                  [2%nat; 1%nat]
                  [PStr "http://x/200"; PStr "http://a..b/"; PStr "http://x/301"]
     = Ok (["Redirect - Status Code: 301";
            "Failed - Failed to parse: 'a..b', label empty or too long";
            "Working"],
           ["Processed 3 out of 3 URLs"]).
Proof. split; vm_compute; reflexivity. Qed.

(** C6, on the code: the end-of-batch test compares the loop index with
    the length of the unfiltered list, so a batch with one real URL and one
    empty URL completes its only task and writes no progress line. *)
Theorem no_final_progress_when_a_url_is_filtered :
  process_urls default_URLChecker (init_ua None) example_world []
               [PStr "http://x/200"; PStr ""]
  = Ok (["Working"], []).
Proof. vm_compute. reflexivity. Qed.

(* ================================================================== *)
(** ** The extractor, [read_urls] *)

Lemma read_entries_paired (key : string) (model : pyval) (entries : list pyval) :
  forall (urls models : list pyval) (r : list pyval * list pyval),
    paired urls models ->
    read_entries key model entries urls models = Ok r ->
    paired (fst r) (snd r).
Proof.
  induction entries as [|entry rest IH]; intros urls models r Hp H.
  - cbn in H. apply Ok_inj in H. subst r. exact Hp.
  - cbn [read_entries] in H. bind_inv H.
    match type of H with
    | (if truthy ?u then _ else _) = _ => destruct (truthy u) eqn:Ht
    end; apply IH in H; try exact H; try exact Hp.
    destruct Hp as [Hlen Hall]. split.
    + rewrite !length_app, Hlen. reflexivity.
    + apply Forall_app. split; [exact Hall|]. constructor; [exact Ht|constructor].
Qed.

Lemma read_models_paired (data : list pyval) :
  forall (iu im au am : list pyval) (lists : url_lists),
    paired iu im -> paired au am ->
    read_models data iu im au am = Ok lists ->
    let '(image_models, image_urls, attachment_models, attachment_urls) := lists in
    paired image_urls image_models /\ paired attachment_urls attachment_models.
Proof.
  induction data as [|json_model rest IH]; intros iu im au am lists Hi Ha H.
  - cbn in H. apply Ok_inj in H. subst lists. split; assumption.
  - cbn [read_models] in H. do 8 bind_inv H.
    apply IH in H; [exact H| |].
    + eapply read_entries_paired; [exact Hi|eassumption].
    + eapply read_entries_paired; [exact Ha|eassumption].
Qed.

Lemma read_entries_dicts (key : string) (model : pyval) (entries : list pyval) :
  forallb is_dict entries = true ->
  forall urls models : list pyval,
    read_entries key model entries urls models =
    Ok (urls ++ kept_urls key entries,
        models ++ map (fun _ => model) (kept_urls key entries)).
Proof.
  unfold kept_urls.
  induction entries as [|entry rest IH]; intros Hd urls models.
  - cbn. rewrite !app_nil_r. reflexivity.
  - cbn [forallb] in Hd. apply andb_true_iff in Hd. destruct Hd as [He Hr].
    destruct entry; try discriminate He.
    cbn [read_entries py_get bind map member filter].
    destruct (truthy (dict_get entries key PNone)).
    + rewrite (IH Hr). cbn [map]. rewrite <- !app_assoc. reflexivity.
    + apply (IH Hr).
Qed.

Lemma read_models_shaped (data : list pyval) :
  forallb model_shape data = true ->
  forall iu im au am : list pyval,
    read_models data iu im au am =
    Ok (im ++ map fst (extracted "images" "src" data),
        iu ++ map snd (extracted "images" "src" data),
        am ++ map fst (extracted "attachments" "attachmentLocation" data),
        au ++ map snd (extracted "attachments" "attachmentLocation" data)).
Proof.
  induction data as [|json_model rest IH]; intros Hs iu im au am.
  - cbn. rewrite !app_nil_r. reflexivity.
  - cbn [forallb] in Hs. apply andb_true_iff in Hs. destruct Hs as [Hm Hr].
    destruct json_model as [| | | | | |fields]; try discriminate Hm.
    cbn [model_shape] in Hm.
    apply andb_true_iff in Hm. destruct Hm as [Hm Hatt].
    apply andb_true_iff in Hm. destruct Hm as [Hgen Himg].
    cbn [read_models py_get bind].
    unfold extracted. cbn [flat_map]. fold (extracted "images" "src" rest).
    fold (extracted "attachments" "attachmentLocation" rest).
    unfold label_of. cbn [member].
    destruct (dict_get fields "general" (PDict [])) as [| | | | | |general];
      try discriminate Hgen.
    destruct (dict_get fields "images" (PList [])) as [| | | | |images|];
      try discriminate Himg.
    destruct (dict_get fields "attachments" (PList [])) as [| | | | |attachments|];
      try discriminate Hatt.
    cbn [py_get bind py_iter member items_of list_of_dicts] in *.
    rewrite (read_entries_dicts _ _ _ Himg). cbn [bind fst snd].
    rewrite (read_entries_dicts _ _ _ Hatt). cbn [bind fst snd].
    rewrite (IH Hr). rewrite !map_app, !map_map. cbn [fst snd].
    rewrite !map_id, !app_assoc. reflexivity.
Qed.

Lemma truthy_nonempty (urls : list pyval) :
  Forall (fun url => truthy url = true) urls ->
  Forall (fun url => truthy url = true /\ url <> PStr "" /\ url <> PNone) urls.
Proof.
  apply Forall_impl. intros url Ht.
  split; [exact Ht|]. split; intros ->; discriminate Ht.
Qed.

(** C10 as stated fails: a document that decodes, but in which "images" is
    null, makes [read_urls] raise a TypeError instead of returning lists. *)
Lemma read_urls_raises_on_null_images :
  ~ (exists lists : url_lists,
       read_urls (mk_JSONReader "m1.json")
                 (fun _ => Ok (PList [ PDict [ ("general", PDict [ ("model", PStr "m1") ]);
                                               ("images", PNone) ] ]))
       = Ok lists).
Proof. intros [lists H]. vm_compute in H. discriminate H. Qed.

(** C10, amended. Whenever [read_urls] returns, the image labels and image
    URLs have equal length, so have the attachment labels and attachment
    URLs, and every returned URL is non-empty.  On a document of the
    expected shape it does return, with exactly the (label, URL) pairs of
    the entries that have a URL, an entry without one contributing neither
    a URL nor a label.  On a document that [json.load] rejects with a
    JSONDecodeError it returns four empty lists. *)
Theorem read_urls_lists :
  (forall (self : JSONReader) (load : string -> res pyval)
          (image_models image_urls attachment_models attachment_urls : list pyval),
      read_urls self load
      = Ok (image_models, image_urls, attachment_models, attachment_urls) ->
      length image_models = length image_urls
      /\ length attachment_models = length attachment_urls
      /\ Forall (fun url => truthy url = true /\ url <> PStr "" /\ url <> PNone)
                image_urls
      /\ Forall (fun url => truthy url = true /\ url <> PStr "" /\ url <> PNone)
                attachment_urls)
  /\ (forall (self : JSONReader) (load : string -> res pyval) (models : list pyval),
      load (json_file self) = Ok (PList models) ->
      expected_shape (PList models) = true ->
      read_urls self load
      = Ok (map fst (extracted "images" "src" models),
            map snd (extracted "images" "src" models),
            map fst (extracted "attachments" "attachmentLocation" models),
            map snd (extracted "attachments" "attachmentLocation" models)))
  /\ (forall (self : JSONReader) (load : string -> res pyval) (e : exn),
      load (json_file self) = Raise e ->
      isinstance e JSONDecodeError = true ->
      read_urls self load = Ok ([], [], [], [])).
Proof.
  refine (conj _ (conj _ _)).
  - intros self load im iu am au H. unfold read_urls in H.
    destruct (load (json_file self)) as [data|e].
    + bind_inv H.
      apply read_models_paired in H; [|split; [reflexivity|constructor]..].
      destruct H as [[Hli Hi] [Hla Ha]].
      repeat split; try assumption; apply truthy_nonempty; assumption.
    + destruct (isinstance e JSONDecodeError); [|discriminate H].
      apply Ok_inj in H. injection H as <- <- <- <-.
      repeat split; constructor.
  - intros self load models Hload Hshape. unfold read_urls. rewrite Hload.
    cbn [py_iter bind]. cbn [expected_shape] in Hshape.
    rewrite (read_models_shaped _ Hshape). reflexivity.
  - intros self load e Hload He. unfold read_urls. rewrite Hload, He. reflexivity.
Qed.

Lemma read_urls_lists_witness :
  (length [PStr "m1"; PStr "m1"] = length [PStr "http://x/200"; PStr "http://x/404"]
   /\ length (@nil pyval) = length (@nil pyval)
   /\ Forall (fun url => truthy url = true /\ url <> PStr "" /\ url <> PNone)
             [PStr "http://x/200"; PStr "http://x/404"]
   /\ Forall (fun url => truthy url = true /\ url <> PStr "" /\ url <> PNone) [])
  /\ read_urls (mk_JSONReader "m1.json") (fun _ => Ok example_document)
     = Ok ([PStr "m1"; PStr "m1"], [PStr "http://x/200"; PStr "http://x/404"],
           [], [])
  /\ read_urls (mk_JSONReader "m1.json")
               (fun _ => Raise (mk_exn JSONDecodeError
                                  "Expecting value: line 1 column 1 (char 0)"))
     = Ok ([], [], [], []).
Proof.
  refine (conj _ (conj _ _)).
  - apply (proj1 read_urls_lists (mk_JSONReader "m1.json")
             (fun _ => Ok example_document)).
    reflexivity.
  - apply (proj1 (proj2 read_urls_lists) (mk_JSONReader "m1.json")
             (fun _ => Ok example_document)
             [ PDict [ ("general", PDict [ ("model", PStr "m1") ]);
                       ("images", PList [ PDict [ ("src", PStr "http://x/200") ];
                                          PDict [ ("src", PStr "http://x/404") ];
                                          PDict [ ("src", PStr "") ];
                                          PDict [] ]) ] ]);
      reflexivity.
  - apply (proj2 (proj2 read_urls_lists) (mk_JSONReader "m1.json") _
             (mk_exn JSONDecodeError "Expecting value: line 1 column 1 (char 0)"));
      reflexivity.
Defined.

(* ================================================================== *)
(** ** Further properties of the probe *)

(** X1. A probe reports "Working" exactly when the request was answered with
    status 200: no other response and no exception produces that string. *)
Theorem check_url_working_iff :
  forall (self : URLChecker) (ua : ua_global) (w : World) (k : nat) (url : pyval),
    check_url self ua w k url = Ok "Working"
    <-> session_get w k (probe_request self ua k url) = Ok (mk_response 200).
Proof.
  intros self ua w k url.
  destruct (session_get w k (probe_request self ua k url)) as [[code]|e] eqn:E.
  - rewrite (check_url_response _ _ _ _ _ code E).
    destruct (Z.eqb_spec code 200) as [->|Hne].
    + split; reflexivity.
    + split; intros H.
      * exfalso. destruct ((300 <=? code) && (code <? 400)); cbn in H;
          discriminate H.
      * exfalso. apply Hne. apply Ok_inj in H.
        exact (f_equal status_code H).
  - rewrite (check_url_raised _ _ _ _ _ e E).
    split; intros H; [|discriminate H].
    exfalso. destruct (isinstance e RequestsTimeout); [discriminate H|].
    destruct (isinstance e RequestException); cbn in H; discriminate H.
Qed.

(** X2. A probe raises exactly when the request raised an exception outside
    the requests library's [RequestException], and it raises that very
    exception. *)
Theorem check_url_raises_iff :
  forall (self : URLChecker) (ua : ua_global) (w : World) (k : nat) (url : pyval)
         (e : exn),
    check_url self ua w k url = Raise e
    <-> session_get w k (probe_request self ua k url) = Raise e
        /\ isinstance e RequestException = false.
Proof.
  intros self ua w k url e.
  destruct (session_get w k (probe_request self ua k url)) as [[code]|e0] eqn:E.
  - rewrite (check_url_response _ _ _ _ _ code E).
    split; [intros H; discriminate H|intros [H _]; discriminate H].
  - rewrite (check_url_raised _ _ _ _ _ e0 E).
    split.
    + intros H. destruct e0 as [[] msg]; cbn in H; try discriminate H;
        injection H as <-; split; reflexivity.
    + intros [H Hc]. injection H as ->. rewrite Hc.
      destruct e as [[] msg]; cbn in Hc |- *; try discriminate Hc; reflexivity.
Qed.

(** Every status a probe returns is one of the five classifications. *)
Lemma check_url_status_form (self : URLChecker) (ua : ua_global) (w : World)
      (k : nat) (url : pyval) (status : string) :
  check_url self ua w k url = Ok status ->
  exists v : StatusValue, status = status_string v.
Proof.
  intros H.
  destruct (session_get w k (probe_request self ua k url)) as [[code]|e] eqn:E.
  - rewrite (check_url_response _ _ _ _ _ code E) in H.
    apply Ok_inj in H. eexists. symmetry. exact H.
  - rewrite (check_url_raised _ _ _ _ _ e E) in H.
    destruct (isinstance e RequestsTimeout);
      [apply Ok_inj in H; eexists; symmetry; exact H|].
    destruct (isinstance e RequestException); [|discriminate H].
    apply Ok_inj in H. eexists. symmetry. exact H.
Qed.

(* ================================================================== *)
(** ** Further properties of the coordinator *)

Lemma submit_all_indexed (self : URLChecker) (ua : ua_global) (w : World)
      (url_list : list pyval) :
  forall k : nat,
    map fst (submit_all self ua w k url_list) =
    map (fun p => mk_Future (fst p) (check_url self ua w (fst p) (snd p)))
        (combine (seq k (length (filter truthy url_list)))
                 (filter truthy url_list)).
Proof.
  induction url_list as [|url rest IH]; intros k; [reflexivity|].
  cbn [submit_all filter]. destruct (truthy url).
  - cbn [map fst length seq combine snd]. rewrite IH. reflexivity.
  - apply IH.
Qed.

Lemma submitted_status_form (self : URLChecker) (ua : ua_global) (w : World)
      (url_list : list pyval) :
  forall k : nat,
    Forall (fun f => exists v : StatusValue, recorded_status f = status_string v)
           (map fst (submit_all self ua w k url_list)).
Proof.
  induction url_list as [|url rest IH]; intros k; [constructor|].
  cbn [submit_all]. destruct (truthy url); [|apply IH].
  cbn [map fst]. constructor; [|apply IH].
  unfold recorded_status. cbn [fut_result].
  destruct (check_url self ua w k url) as [status|e] eqn:E.
  - exact (check_url_status_form _ _ _ _ _ _ E).
  - eexists. reflexivity.
Qed.

Lemma progress_lines_closed (url_list : list pyval) (n : nat) :
  forall k : nat,
    progress_lines url_list (Z.of_nat k) n =
    map (fun c => progress_message c url_list)
        (filter (fun c => (c mod 10 =? 0) || (c =? Z.of_nat (length url_list)))
                (map Z.of_nat (seq (S k) n))).
Proof.
  induction n as [|n IH]; intros k; [reflexivity|].
  cbn [progress_lines seq map filter]. unfold notifies.
  replace (Z.of_nat k + 1) with (Z.of_nat (S k)) by lia.
  rewrite IH.
  replace (Z.of_nat k =? Z.of_nat (length url_list) - 1)
    with (Z.of_nat (S k) =? Z.of_nat (length url_list)).
  - destruct ((Z.of_nat (S k) mod 10 =? 0)
              || (Z.of_nat (S k) =? Z.of_nat (length url_list))); reflexivity.
  - destruct (Z.eqb_spec (Z.of_nat (S k)) (Z.of_nat (length url_list)));
      symmetry; [apply Z.eqb_eq|apply Z.eqb_neq]; lia.
Qed.

Lemma completed_length (self : URLChecker) (ua : ua_global) (w : World)
      (sched : list nat) (url_list : list pyval) :
  length (as_completed sched (map fst (submit_all self ua w 0 url_list)))
  = length (filter truthy url_list).
Proof.
  rewrite (Permutation_length (as_completed_perm _ _)), length_map.
  apply submit_all_length.
Qed.

Lemma filter_all_true {A : Type} (f : A -> bool) (l : list A) :
  forallb f l = true -> filter f l = l.
Proof.
  induction l as [|x l IH]; cbn; [reflexivity|].
  intros H. apply andb_true_iff in H. destruct H as [Hx Hl].
  rewrite Hx, (IH Hl). reflexivity.
Qed.

Lemma filter_all_false {A : Type} (f : A -> bool) (l : list A) :
  forallb (fun x => negb (f x)) l = true -> filter f l = [].
Proof.
  induction l as [|x l IH]; cbn; [reflexivity|].
  intros H. apply andb_true_iff in H. destruct H as [Hx Hl].
  apply negb_true_iff in Hx. rewrite Hx. exact (IH Hl).
Qed.

(** X3. With a pool of at least one worker, every status [process_urls]
    returns is one of the five classifications, whatever the network did
    and whatever was raised. *)
Theorem process_urls_statuses_are_classifications :
  forall (self : URLChecker) (ua : ua_global) (w : World) (sched : list nat)
         (url_list : list pyval),
    0 < max_workers self ->
    exists statuses written,
      process_urls self ua w sched url_list = Ok (statuses, written)
      /\ Forall (fun status => exists v : StatusValue, status = status_string v)
                statuses.
Proof.
  intros self ua w sched url_list Hn.
  eexists. eexists. split; [apply (process_urls_spec _ _ _ _ _ Hn)|]. cbv zeta.
  apply Forall_map.
  apply (Permutation_Forall
           (Permutation_sym (as_completed_perm sched
              (map fst (submit_all self ua w 0 url_list))))).
  apply submitted_status_form.
Qed.

Lemma process_urls_statuses_are_classifications_witness :
  exists statuses written,
    process_urls default_URLChecker (init_ua None) example_world [1%nat]
                 [PStr "http://x/slow"; PStr "http://a..b/"; PStr "http://x/301"]
    = Ok (statuses, written)
    /\ Forall (fun status => exists v : StatusValue, status = status_string v)
              statuses.
Proof.
  apply (process_urls_statuses_are_classifications default_URLChecker
           (init_ua None) example_world [1%nat]
           [PStr "http://x/slow"; PStr "http://a..b/"; PStr "http://x/301"]).
  reflexivity.
Defined.

(** X4. With a pool of at least one worker, whenever [as_completed]
    yields the futures in the order they were submitted, the returned
    statuses are, position by position, those of the non-empty URLs of the
    input in their input order. *)
Theorem statuses_in_submission_order :
  forall (self : URLChecker) (ua : ua_global) (w : World) (sched : list nat)
         (url_list : list pyval),
    0 < max_workers self ->
    as_completed sched (map fst (submit_all self ua w 0 url_list))
    = map fst (submit_all self ua w 0 url_list) ->
    exists written,
      process_urls self ua w sched url_list =
      Ok (map (fun p => probe_status self ua w (fst p) (snd p))
              (combine (seq 0 (length (filter truthy url_list)))
                       (filter truthy url_list)),
          written).
Proof.
  intros self ua w sched url_list Hn Horder. eexists.
  rewrite (process_urls_spec _ _ _ _ _ Hn). cbv zeta.
  rewrite Horder, submit_all_indexed, map_map.
  reflexivity.
Qed.

Lemma statuses_in_submission_order_witness :
  exists written,
    process_urls default_URLChecker (init_ua None) example_world
                 [0%nat; 0%nat]
                 [PStr "http://x/200"; PStr ""; PStr "http://x/404"]
    = Ok (map (fun p => probe_status default_URLChecker (init_ua None)
                          example_world (fst p) (snd p))
              (combine (seq 0 (length (filter truthy
                         [PStr "http://x/200"; PStr ""; PStr "http://x/404"])))
                       (filter truthy
                          [PStr "http://x/200"; PStr ""; PStr "http://x/404"])),
          written).
Proof.
  apply (statuses_in_submission_order default_URLChecker (init_ua None)
           example_world [0%nat; 0%nat]
           [PStr "http://x/200"; PStr ""; PStr "http://x/404"]).
  - reflexivity.
  - reflexivity.
Defined.

Lemma process_urls_closed_form (self : URLChecker) (ua : ua_global) (w : World)
      (sched : list nat) (url_list : list pyval) :
  0 < max_workers self ->
  process_urls self ua w sched url_list =
  Ok (map recorded_status
          (as_completed sched (map fst (submit_all self ua w 0 url_list))),
      map (fun c => progress_message c url_list)
          (progress_counts url_list (length (filter truthy url_list)))).
Proof.
  intros Hn. rewrite (process_urls_spec _ _ _ _ _ Hn). cbv zeta.
  rewrite completed_length. change 0 with (Z.of_nat 0) at 1.
  rewrite progress_lines_closed. reflexivity.
Qed.

(** X5. With a pool of at least one worker, the progress lines depend on
    the URL list alone, not on the network or on the order in which the
    futures are yielded: with [n] non-empty URLs they are, in
    order, "Processed c out of len(url_list) URLs" for the counts c in
    1..n that are multiples of 10 or equal to len(url_list). *)
Theorem progress_written :
  forall (self : URLChecker) (ua : ua_global) (w : World) (sched : list nat)
         (url_list : list pyval),
    0 < max_workers self ->
    exists statuses,
      process_urls self ua w sched url_list =
      Ok (statuses,
          map (fun c => progress_message c url_list)
              (progress_counts url_list (length (filter truthy url_list)))).
Proof.
  intros self ua w sched url_list Hn. eexists.
  apply (process_urls_closed_form _ _ _ _ _ Hn).
Qed.

Lemma progress_written_witness :
  exists statuses,
    process_urls default_URLChecker (init_ua None) example_world [1%nat]
                 [PStr "http://x/200"; PStr "http://x/404"]
    = Ok (statuses,
          map (fun c => progress_message c
                          [PStr "http://x/200"; PStr "http://x/404"])
              (progress_counts [PStr "http://x/200"; PStr "http://x/404"]
                 (length (filter truthy
                            [PStr "http://x/200"; PStr "http://x/404"])))).
Proof.
  apply (progress_written default_URLChecker (init_ua None) example_world
           [1%nat] [PStr "http://x/200"; PStr "http://x/404"]).
  reflexivity.
Defined.

Lemma last_progress_count (url_list : list pyval) :
  url_list <> [] ->
  last (map (fun c => progress_message c url_list)
            (progress_counts url_list (length url_list))) ""
  = progress_message (Z.of_nat (length url_list)) url_list.
Proof.
  intros Hne. unfold progress_counts.
  destruct (length url_list) as [|n] eqn:Hlen.
  - destruct url_list; [contradiction|discriminate Hlen].
  - rewrite seq_S, map_app, filter_app, map_app. cbn [map filter Nat.add].
    rewrite Z.eqb_refl, orb_true_r. cbn [map]. apply last_last.
Qed.

(** X6. With a pool of at least one worker, when no URL of a non-empty
    list is filtered out, the last progress line written reports the whole
    batch. *)
Theorem final_progress_when_nothing_filtered :
  forall (self : URLChecker) (ua : ua_global) (w : World) (sched : list nat)
         (url_list : list pyval),
    0 < max_workers self ->
    url_list <> [] ->
    forallb truthy url_list = true ->
    exists statuses written,
      process_urls self ua w sched url_list = Ok (statuses, written)
      /\ last written ""
         = progress_message (Z.of_nat (length url_list)) url_list.
Proof.
  intros self ua w sched url_list Hn Hne Hall.
  eexists. eexists. split; [apply (process_urls_closed_form _ _ _ _ _ Hn)|].
  rewrite (filter_all_true _ _ Hall). apply last_progress_count. exact Hne.
Qed.

Lemma final_progress_when_nothing_filtered_witness :
  exists statuses written,
    process_urls default_URLChecker (init_ua None) example_world [1%nat]
                 [PStr "http://x/200"; PStr "http://x/404"]
    = Ok (statuses, written)
    /\ last written ""
       = progress_message 2 [PStr "http://x/200"; PStr "http://x/404"].
Proof.
  apply (final_progress_when_nothing_filtered default_URLChecker (init_ua None)
           example_world [1%nat] [PStr "http://x/200"; PStr "http://x/404"]).
  - reflexivity.
  - discriminate.
  - reflexivity.
Defined.

(** X7. With a pool of at least one worker, a list without any non-empty
    URL (the empty list included) is processed without a probe: no status,
    no progress line. *)
Theorem process_urls_nothing_to_probe :
  forall (self : URLChecker) (ua : ua_global) (w : World) (sched : list nat)
         (url_list : list pyval),
    0 < max_workers self ->
    forallb (fun url => negb (truthy url)) url_list = true ->
    process_urls self ua w sched url_list = Ok ([], []).
Proof.
  intros self ua w sched url_list Hn Hnone.
  rewrite (process_urls_closed_form _ _ _ _ _ Hn).
  assert (Hc : as_completed sched (map fst (submit_all self ua w 0 url_list)) = []).
  { apply length_zero_iff_nil.
    rewrite completed_length, (filter_all_false _ _ Hnone). reflexivity. }
  rewrite Hc, (filter_all_false _ _ Hnone). reflexivity.
Qed.

Lemma process_urls_nothing_to_probe_witness :
  process_urls default_URLChecker (init_ua None) example_world [3%nat]
               [PStr ""; PNone; PInt 0; PList []]
  = Ok ([], []).
Proof.
  apply (process_urls_nothing_to_probe default_URLChecker (init_ua None)
           example_world [3%nat] [PStr ""; PNone; PInt 0; PList []]).
  - reflexivity.
  - reflexivity.
Defined.

(* ================================================================== *)
(** ** The data frames of the exporter *)

Lemma columns_combine (a b : list pyval) (c : list string) :
  length a = length b -> length b = length c ->
  columns (combine (combine a b) c) = (a, b, c).
Proof.
  unfold columns. revert b c.
  induction a as [|x a IH]; intros [|y b] [|z c] Hab Hbc;
    try discriminate Hab; try discriminate Hbc; [reflexivity|].
  cbn in Hab, Hbc. injection Hab as Hab. injection Hbc as Hbc.
  specialize (IH b c Hab Hbc). cbn [combine map fst snd].
  injection IH as -> -> ->. reflexivity.
Qed.

Lemma DataFrame_equal_lengths (a b : list pyval) (c : list string) :
  length a = length b -> length b = length c ->
  DataFrame a b c = Ok (combine (combine a b) c).
Proof.
  intros Hab Hbc. unfold DataFrame.
  rewrite Hab, Hbc, !Nat.eqb_refl. reflexivity.
Qed.

(* ================================================================== *)
(** ** Further properties of the extractor *)

Lemma read_urls_paired (self : JSONReader) (load : string -> res pyval)
      (im iu am au : list pyval) :
  read_urls self load = Ok (im, iu, am, au) ->
  paired iu im /\ paired au am.
Proof.
  intros H. unfold read_urls in H.
  destruct (load (json_file self)) as [data|e].
  - bind_inv H.
    apply read_models_paired in H; [exact H|split; [reflexivity|constructor]..].
  - destruct (isinstance e JSONDecodeError); [|discriminate H].
    apply Ok_inj in H. injection H as <- <- <- <-.
    split; (split; [reflexivity|constructor]).
Qed.

Lemma paired_filter (urls models : list pyval) :
  paired urls models -> filter truthy urls = urls.
Proof.
  intros [_ Hall]. apply filter_all_true. apply forallb_forall.
  apply Forall_forall. exact Hall.
Qed.

Lemma read_entries_returns_iff (key : string) (model : pyval)
      (entries : list pyval) :
  forall urls models : list pyval,
    (exists r, read_entries key model entries urls models = Ok r)
    <-> forallb is_dict entries = true.
Proof.
  induction entries as [|entry rest IH]; intros urls models.
  - cbn. split; [reflexivity|]. intros _. eexists. reflexivity.
  - cbn [read_entries forallb].
    destruct entry; cbn [py_get bind is_dict andb];
      try (split; [intros [r H]; discriminate H|intros H; discriminate H]).
    destruct (truthy (dict_get entries key PNone)); apply IH.
Qed.

Lemma read_entries_raise_class (key : string) (model : pyval)
      (entries : list pyval) :
  forall (urls models : list pyval) (e : exn),
    read_entries key model entries urls models = Raise e ->
    exn_class e = AttributeError.
Proof.
  induction entries as [|entry rest IH]; intros urls models e H.
  - discriminate H.
  - cbn [read_entries] in H.
    destruct entry; cbn [py_get bind] in H;
      try (injection H as <-; reflexivity).
    destruct (truthy (dict_get entries key PNone)); exact (IH _ _ _ H).
Qed.

Lemma py_iter_dicts_iff (v : pyval) :
  iterates_dicts v = true
  <-> exists items, py_iter v = Ok items /\ forallb is_dict items = true.
Proof.
  destruct v as [| | | |s|items|entries]; cbn [iterates_dicts py_iter];
    try (split; [intros H; discriminate H|intros [items [H _]]; discriminate H]).
  - destruct s as [|a s]; cbn.
    + split; [intros _; eexists; split; reflexivity|reflexivity].
    + split; [intros H; discriminate H|].
      intros [items [H Hd]]. apply Ok_inj in H. subst items. discriminate Hd.
  - split.
    + intros H. eexists. split; [reflexivity|exact H].
    + intros [items' [H Hd]]. apply Ok_inj in H. subst items'. exact Hd.
  - destruct entries as [|kv entries]; cbn.
    + split; [intros _; eexists; split; reflexivity|reflexivity].
    + split; [intros H; discriminate H|].
      intros [items [H Hd]]. apply Ok_inj in H. subst items. discriminate Hd.
Qed.

Lemma py_iter_raise_class (v : pyval) (e : exn) :
  py_iter v = Raise e -> exn_class e = TypeError.
Proof. destruct v; cbn; intros H; try discriminate H; injection H as <-; reflexivity. Qed.

Lemma py_get_raise_class (o : pyval) (key : string) (default : pyval) (e : exn) :
  py_get o key default = Raise e -> exn_class e = AttributeError.
Proof. destruct o; cbn; intros H; try discriminate H; injection H as <-; reflexivity. Qed.

Lemma walk_entries_ok (key : string) (model v : pyval) (urls models : list pyval) :
  iterates_dicts v = true ->
  exists items r,
    py_iter v = Ok items /\ read_entries key model items urls models = Ok r.
Proof.
  intros H. apply py_iter_dicts_iff in H. destruct H as [items [Hi Hd]].
  destruct (proj2 (read_entries_returns_iff key model items urls models) Hd)
    as [r Hr].
  exists items, r. split; assumption.
Qed.

Lemma walk_entries_fail (key : string) (model v : pyval) (urls models : list pyval) :
  iterates_dicts v = false ->
  (exists e, py_iter v = Raise e /\ exn_class e = TypeError)
  \/ (exists items e,
         py_iter v = Ok items
         /\ read_entries key model items urls models = Raise e
         /\ exn_class e = AttributeError).
Proof.
  intros H. destruct (py_iter v) as [items|e] eqn:Ei.
  - right. destruct (read_entries key model items urls models) as [r|e] eqn:Er.
    + exfalso.
      assert (Hd : forallb is_dict items = true).
      { apply (read_entries_returns_iff key model items urls models).
        eexists. exact Er. }
      assert (Ht : iterates_dicts v = true).
      { apply py_iter_dicts_iff. exists items. split; assumption. }
      rewrite Ht in H. discriminate H.
    + exists items, e. refine (conj eq_refl (conj Er _)).
      exact (read_entries_raise_class _ _ _ _ _ _ Er).
  - left. exists e. split; [reflexivity|]. exact (py_iter_raise_class _ _ Ei).
Qed.

Lemma read_models_step_accepted (json_model : pyval)
      (iu im au am : list pyval) :
  model_accepted json_model = true ->
  exists iu' im' au' am',
    forall rest, read_models (json_model :: rest) iu im au am
                 = read_models rest iu' im' au' am'.
Proof.
  intros H. destruct json_model as [| | | | | |fields]; try discriminate H.
  cbn [model_accepted] in H.
  apply andb_true_iff in H. destruct H as [H Hatt].
  apply andb_true_iff in H. destruct H as [Hgen Himg].
  destruct (dict_get fields "general" (PDict [])) as [| | | | | |general] eqn:Eg;
    try discriminate Hgen.
  destruct (walk_entries_ok "src" (dict_get general "model" PNone) _ iu im Himg)
    as [images [ri [Hii Hri]]].
  destruct (walk_entries_ok "attachmentLocation"
              (dict_get general "model" PNone) _ au am Hatt)
    as [attachments [ra [Hia Hra]]].
  exists (fst ri), (snd ri), (fst ra), (snd ra). intros rest.
  cbn [read_models py_get bind]. rewrite Eg. cbn [py_get bind].
  rewrite Hii. cbn [bind]. rewrite Hri. cbn [bind].
  rewrite Hia. cbn [bind]. rewrite Hra. reflexivity.
Qed.

Lemma read_models_step_rejected (json_model : pyval)
      (iu im au am : list pyval) :
  model_accepted json_model = false ->
  exists e,
    (exn_class e = TypeError \/ exn_class e = AttributeError)
    /\ forall rest, read_models (json_model :: rest) iu im au am = Raise e.
Proof.
  intros H.
  destruct json_model as [| | | | | |fields];
    try (eexists; split; [|intros rest; reflexivity]; right; reflexivity).
  cbn [model_accepted] in H.
  destruct (dict_get fields "general" (PDict [])) as [| | | | | |general] eqn:Eg;
    try (eexists; split;
         [|intros rest; cbn [read_models py_get bind]; rewrite Eg; reflexivity];
         right; reflexivity).
  cbn [is_dict andb] in H.
  destruct (iterates_dicts (dict_get fields "images" (PList []))) eqn:Himg.
  - cbn [andb] in H.
    destruct (walk_entries_ok "src" (dict_get general "model" PNone) _ iu im Himg)
      as [images [ri [Hii Hri]]].
    destruct (walk_entries_fail "attachmentLocation"
                (dict_get general "model" PNone) _ au am H)
      as [[e [Hia Hc]]|[attachments [e [Hia [Hra Hc]]]]];
      exists e; (split; [auto|]); intros rest;
      cbn [read_models py_get bind]; rewrite Eg; cbn [py_get bind];
      rewrite Hii; cbn [bind]; rewrite Hri; cbn [bind];
      rewrite Hia; cbn [bind]; [reflexivity|rewrite Hra; reflexivity].
  - destruct (walk_entries_fail "src" (dict_get general "model" PNone) _ iu im Himg)
      as [[e [Hii Hc]]|[images [e [Hii [Hri Hc]]]]];
      exists e; (split; [auto|]); intros rest;
      cbn [read_models py_get bind]; rewrite Eg; cbn [py_get bind];
      rewrite Hii; cbn [bind]; [reflexivity|rewrite Hri; reflexivity].
Qed.

Lemma read_models_accepted (data : list pyval) :
  forallb model_accepted data = true ->
  forall iu im au am, exists r, read_models data iu im au am = Ok r.
Proof.
  induction data as [|json_model rest IH]; intros H iu im au am.
  - eexists. reflexivity.
  - cbn [forallb] in H. apply andb_true_iff in H. destruct H as [Hm Hr].
    destruct (read_models_step_accepted json_model iu im au am Hm)
      as [iu' [im' [au' [am' Hstep]]]].
    rewrite Hstep. apply (IH Hr).
Qed.

Lemma read_models_rejected (data : list pyval) :
  forallb model_accepted data = false ->
  forall iu im au am,
  exists e, read_models data iu im au am = Raise e
            /\ (exn_class e = TypeError \/ exn_class e = AttributeError).
Proof.
  induction data as [|json_model rest IH]; intros H iu im au am.
  - discriminate H.
  - cbn [forallb] in H. destruct (model_accepted json_model) eqn:Hm.
    + cbn [andb] in H.
      destruct (read_models_step_accepted json_model iu im au am Hm)
        as [iu' [im' [au' [am' Hstep]]]].
      rewrite Hstep. apply (IH H).
    + destruct (read_models_step_rejected json_model iu im au am Hm)
        as [e [Hc Hstep]].
      exists e. split; [apply Hstep|exact Hc].
Qed.

Lemma document_accepted_iff (data : pyval) :
  document_accepted data = true
  <-> exists items, py_iter data = Ok items
                    /\ forallb model_accepted items = true.
Proof.
  destruct data as [| | | |s|items|entries]; cbn [document_accepted py_iter];
    try (split; [intros H; discriminate H|intros [items [H _]]; discriminate H]).
  - destruct s as [|a s]; cbn.
    + split; [intros _; eexists; split; reflexivity|reflexivity].
    + split; [intros H; discriminate H|].
      intros [items [H Hd]]. apply Ok_inj in H. subst items. discriminate Hd.
  - split.
    + intros H. eexists. split; [reflexivity|exact H].
    + intros [items' [H Hd]]. apply Ok_inj in H. subst items'. exact Hd.
  - destruct entries as [|kv entries]; cbn.
    + split; [intros _; eexists; split; reflexivity|reflexivity].
    + split; [intros H; discriminate H|].
      intros [items [H Hd]]. apply Ok_inj in H. subst items. discriminate Hd.
Qed.

Lemma read_urls_decoded (self : JSONReader) (load : string -> res pyval)
      (data : pyval) :
  load (json_file self) = Ok data ->
  if document_accepted data
  then exists lists, read_urls self load = Ok lists
  else exists e, read_urls self load = Raise e
                 /\ (exn_class e = TypeError \/ exn_class e = AttributeError).
Proof.
  intros Hload. unfold read_urls. rewrite Hload.
  destruct (document_accepted data) eqn:Hd.
  - apply document_accepted_iff in Hd. destruct Hd as [items [Hi Hm]].
    rewrite Hi. cbn [bind]. apply (read_models_accepted _ Hm).
  - destruct (py_iter data) as [items|e] eqn:Hi; cbn [bind].
    + apply read_models_rejected.
      destruct (forallb model_accepted items) eqn:Hm; [|reflexivity].
      exfalso. assert (Ht : document_accepted data = true).
      { apply document_accepted_iff. exists items. split; assumption. }
      rewrite Ht in Hd. discriminate Hd.
    + exists e. split; [reflexivity|]. left. exact (py_iter_raise_class _ _ Hi).
Qed.

(** X10. [read_urls] returns lists exactly in two cases: the file decoded to a
    document it can walk (a list of objects whose "general" is absent or an
    object and whose "images" and "attachments" are absent or iterate over
    objects only), or decoding failed with a JSONDecodeError.  In every
    other case it raises. *)
Theorem read_urls_returns_iff :
  forall (self : JSONReader) (load : string -> res pyval),
    (exists lists, read_urls self load = Ok lists)
    <-> match load (json_file self) with
        | Ok data => document_accepted data = true
        | Raise e => isinstance e JSONDecodeError = true
        end.
Proof.
  intros self load.
  destruct (load (json_file self)) as [data|e] eqn:Hload.
  - pose proof (read_urls_decoded self load data Hload) as H.
    destruct (document_accepted data).
    + split; [reflexivity|intros _; exact H].
    + split; [|intros Hf; discriminate Hf].
      intros [lists Hl]. destruct H as [e [He _]].
      rewrite He in Hl. discriminate Hl.
  - unfold read_urls. rewrite Hload.
    destruct (isinstance e JSONDecodeError).
    + split; [reflexivity|intros _; eexists; reflexivity].
    + split; [intros [lists Hl]; discriminate Hl|intros Hf; discriminate Hf].
Qed.

(** X11. What [read_urls] raises: either the very exception that opening or
    decoding the file raised, when that is not a JSONDecodeError, or, on a
    decoded document it cannot walk, a TypeError or an AttributeError. *)
Theorem read_urls_raises :
  forall (self : JSONReader) (load : string -> res pyval) (e : exn),
    read_urls self load = Raise e ->
    (load (json_file self) = Raise e /\ isinstance e JSONDecodeError = false)
    \/ (exists data,
           load (json_file self) = Ok data
           /\ document_accepted data = false
           /\ (exn_class e = TypeError \/ exn_class e = AttributeError)).
Proof.
  intros self load e H.
  destruct (load (json_file self)) as [data|e0] eqn:Hload.
  - right. exists data. split; [reflexivity|].
    pose proof (read_urls_decoded self load data Hload) as Hd.
    destruct (document_accepted data).
    + destruct Hd as [lists Hl]. rewrite Hl in H. discriminate H.
    + split; [reflexivity|]. destruct Hd as [e' [He' Hc]].
      rewrite He' in H. injection H as <-. exact Hc.
  - left. unfold read_urls in H. rewrite Hload in H.
    destruct (isinstance e0 JSONDecodeError) eqn:Hj; [discriminate H|].
    injection H as <-. split; [reflexivity|exact Hj].
Qed.

Lemma read_urls_raises_witness :
  ((fun _ : string => Ok (PList [ PDict [ ("images", PNone) ] ])) "m1.json"
   = Raise (mk_exn TypeError "'NoneType' object is not iterable")
   /\ isinstance (mk_exn TypeError "'NoneType' object is not iterable")
                 JSONDecodeError = false)
  \/ (exists data,
         (fun _ : string => Ok (PList [ PDict [ ("images", PNone) ] ])) "m1.json"
         = Ok data
         /\ document_accepted data = false
         /\ (exn_class (mk_exn TypeError "'NoneType' object is not iterable")
             = TypeError
             \/ exn_class (mk_exn TypeError "'NoneType' object is not iterable")
                = AttributeError)).
Proof.
  apply (read_urls_raises (mk_JSONReader "m1.json")
           (fun _ => Ok (PList [ PDict [ ("images", PNone) ] ]))
           (mk_exn TypeError "'NoneType' object is not iterable")).
  reflexivity.
Defined.

(* ================================================================== *)
(** ** One file, from extraction to export: [check_file] *)

Section CheckFile.

Variables (url_checker : URLChecker) (ua : ua_global)
          (load : string -> res pyval) (stem : string -> string)
          (write : excel_writer)
          (w_images w_attachments : World)
          (sched_images sched_attachments : list nat)
          (path : string).

Lemma recorded_length (w : World) (sched : list nat) (urls models : list pyval) :
  paired urls models ->
  length urls
  = length (map recorded_status
                (as_completed sched (map fst (submit_all url_checker ua w 0 urls)))).
Proof.
  intros Hp. rewrite length_map, completed_length, (paired_filter _ _ Hp).
  reflexivity.
Qed.

Lemma check_file_after_read (im iu am au : list pyval) :
  0 < max_workers url_checker ->
  read_urls (mk_JSONReader path) load = Ok (im, iu, am, au) ->
  check_file url_checker ua load stem write w_images w_attachments
             sched_images sched_attachments path =
  if negb (truthy (PList iu)) && negb (truthy (PList au)) then Ok None
  else
    let sheets :=
      [ ("image_status",
         combine (combine im iu)
           (map recorded_status
              (as_completed sched_images
                 (map fst (submit_all url_checker ua w_images 0 iu)))));
        ("pdf_status",
         combine (combine am au)
           (map recorded_status
              (as_completed sched_attachments
                 (map fst (submit_all url_checker ua w_attachments 0 au))))) ] in
    done <- write (output_file_name stem path) sheets ;;
    Ok (Some sheets).
Proof.
  intros Hn H. unfold check_file. rewrite H. cbn [bind].
  destruct (negb (truthy (PList iu)) && negb (truthy (PList au)));
    [reflexivity|].
  rewrite !(process_urls_closed_form _ _ _ _ _ Hn). cbn [bind fst].
  destruct (read_urls_paired _ _ _ _ _ _ H) as [Hi Ha].
  unfold save_to_excel.
  rewrite (DataFrame_equal_lengths im iu _ (proj1 Hi)
             (recorded_length w_images sched_images iu im Hi)).
  rewrite (DataFrame_equal_lengths am au _ (proj1 Ha)
             (recorded_length w_attachments sched_attachments au am Ha)).
  cbn [bind output_file]. cbv zeta.
  destruct (write (output_file_name stem path) _); reflexivity.
Qed.

Lemma check_file_raise (e : exn) :
  read_urls (mk_JSONReader path) load = Raise e ->
  check_file url_checker ua load stem write w_images w_attachments
             sched_images sched_attachments path = Raise e.
Proof. intros H. unfold check_file. rewrite H. reflexivity. Qed.

Lemma check_file_not_skipped (im iu am au : list pyval) :
  read_urls (mk_JSONReader path) load = Ok (im, iu, am, au) ->
  negb (truthy (PList iu)) && negb (truthy (PList au)) = false ->
  check_file url_checker ua load stem write w_images w_attachments
             sched_images sched_attachments path <> Ok None.
Proof.
  intros H Hsome.
  destruct (Z.leb_spec (max_workers url_checker) 0) as [Hn|Hn].
  - unfold check_file. rewrite H. cbn [bind]. rewrite Hsome.
    rewrite (process_urls_without_workers _ _ _ _ _ Hn). discriminate.
  - rewrite (check_file_after_read _ _ _ _ Hn H), Hsome. cbv zeta.
    destruct (write (output_file_name stem path) _); discriminate.
Qed.

Lemma check_file_result (r : option (list (string * list row))) :
  check_file url_checker ua load stem write w_images w_attachments
             sched_images sched_attachments path = Ok r ->
  if has_urls load path then exists book, r = Some book else r = None.
Proof.
  intros H. unfold has_urls.
  destruct (read_urls (mk_JSONReader path) load) as [[[[im iu] am] au]|e] eqn:E.
  - destruct (truthy (PList iu) || truthy (PList au)) eqn:Hsome.
    + destruct r as [book|]; [exists book; reflexivity|].
      exfalso. apply (check_file_not_skipped _ _ _ _ E); [|exact H].
      rewrite <- negb_orb, Hsome. reflexivity.
    + unfold check_file in H. rewrite E in H. cbn [bind] in H.
      rewrite <- negb_orb, Hsome in H. cbn [negb] in H.
      apply Ok_inj in H. symmetry. exact H.
  - rewrite (check_file_raise e E) in H. discriminate H.
Qed.

End CheckFile.

(** X13. A file is skipped, without a probe and without a workbook, exactly
    when the extractor returns four empty lists; that includes every file
    whose decoding fails with a JSONDecodeError. *)
Theorem check_file_skips_iff :
  forall (url_checker : URLChecker) (ua : ua_global) (load : string -> res pyval)
         (stem : string -> string) (write : excel_writer)
         (w_images w_attachments : World)
         (sched_images sched_attachments : list nat) (path : string),
    check_file url_checker ua load stem write w_images w_attachments
               sched_images sched_attachments path = Ok None
    <-> read_urls (mk_JSONReader path) load = Ok ([], [], [], []).
Proof.
  intros c ua load stem write wi wa si sa path.
  destruct (read_urls (mk_JSONReader path) load) as [[[[im iu] am] au]|e0] eqn:E.
  - destruct (read_urls_paired _ _ _ _ _ _ E) as [[Hi _] [Ha _]].
    destruct (negb (truthy (PList iu)) && negb (truthy (PList au))) eqn:Hsome.
    + destruct iu; [|discriminate Hsome]. destruct au; [|discriminate Hsome].
      destruct im; [|discriminate Hi]. destruct am; [|discriminate Ha].
      split; [reflexivity|]. intros _. unfold check_file. rewrite E. reflexivity.
    + split.
      * intros H. exfalso.
        exact (check_file_not_skipped c ua load stem write wi wa si sa path
                 _ _ _ _ E Hsome H).
      * intros H. apply Ok_inj in H. injection H as -> -> -> ->.
        discriminate Hsome.
  - rewrite (check_file_raise c ua load stem write wi wa si sa path e0 E).
    split; intros H; discriminate H.
Qed.

(** X14. When the extractor finds at least one URL and the pool has at
    least one worker, a file's run always reaches the export step, and its
    outcome is then the writer's.  The two data frames it hands over,
    "image_status" and "pdf_status", have one row per extracted URL: the
    Model_name and URL columns are the extractor's lists in document
    order, and the Status column is a rearrangement of the statuses of
    exactly these URLs' probes. *)
Theorem check_file_reaches_export :
  forall (url_checker : URLChecker) (ua : ua_global) (load : string -> res pyval)
         (stem : string -> string) (write : excel_writer)
         (w_images w_attachments : World)
         (sched_images sched_attachments : list nat) (path : string)
         (im iu am au : list pyval),
    0 < max_workers url_checker ->
    read_urls (mk_JSONReader path) load = Ok (im, iu, am, au) ->
    iu <> [] \/ au <> [] ->
    exists image_rows attachment_rows image_statuses attachment_statuses,
      check_file url_checker ua load stem write w_images w_attachments
                 sched_images sched_attachments path
      = (done <- write (output_file_name stem path)
                   [ ("image_status", image_rows);
                     ("pdf_status", attachment_rows) ] ;;
         Ok (Some [ ("image_status", image_rows);
                    ("pdf_status", attachment_rows) ]))
      /\ columns image_rows = (im, iu, image_statuses)
      /\ columns attachment_rows = (am, au, attachment_statuses)
      /\ Permutation image_statuses
           (map (fun p => probe_status url_checker ua w_images (fst p) (snd p))
                (combine (seq 0 (length iu)) iu))
      /\ Permutation attachment_statuses
           (map (fun p => probe_status url_checker ua w_attachments (fst p) (snd p))
                (combine (seq 0 (length au)) au)).
Proof.
  intros c ua load stem write wi wa si sa path im iu am au Hn E Hsome.
  destruct (read_urls_paired _ _ _ _ _ _ E) as [Hi Ha].
  do 2 eexists.
  exists (map recorded_status (as_completed si (map fst (submit_all c ua wi 0 iu)))),
         (map recorded_status (as_completed sa (map fst (submit_all c ua wa 0 au)))).
  refine (conj _ (conj _ (conj _ (conj _ _)))).
  - rewrite (check_file_after_read c ua load stem write wi wa si sa path
               _ _ _ _ Hn E).
    replace (negb (truthy (PList iu)) && negb (truthy (PList au))) with false;
      [reflexivity|].
    destruct Hsome as [H|H]; [destruct iu|destruct au]; try contradiction;
      cbn; [reflexivity|symmetry; apply andb_false_r].
  - apply columns_combine;
      [exact (proj1 Hi)|exact (recorded_length _ _ _ _ _ _ Hi)].
  - apply columns_combine;
      [exact (proj1 Ha)|exact (recorded_length _ _ _ _ _ _ Ha)].
  - etransitivity; [apply Permutation_map, as_completed_perm|].
    rewrite submit_all_indexed, map_map, (paired_filter _ _ Hi). reflexivity.
  - etransitivity; [apply Permutation_map, as_completed_perm|].
    rewrite submit_all_indexed, map_map, (paired_filter _ _ Ha). reflexivity.
Qed.

Lemma check_file_reaches_export_witness :
  exists image_rows attachment_rows image_statuses attachment_statuses,
    check_file default_URLChecker (init_ua None) (fun _ => Ok example_document)
               example_stem example_write
               example_world example_world [1%nat] [] "m1.json"
    = (done <- example_write (output_file_name example_stem "m1.json")
                 [ ("image_status", image_rows);
                   ("pdf_status", attachment_rows) ] ;;
       Ok (Some [ ("image_status", image_rows);
                  ("pdf_status", attachment_rows) ]))
    /\ columns image_rows
       = ([PStr "m1"; PStr "m1"], [PStr "http://x/200"; PStr "http://x/404"],
          image_statuses)
    /\ columns attachment_rows = ([], [], attachment_statuses)
    /\ Permutation image_statuses
         (map (fun p => probe_status default_URLChecker (init_ua None)
                          example_world (fst p) (snd p))
              (combine (seq 0 2) [PStr "http://x/200"; PStr "http://x/404"]))
    /\ Permutation attachment_statuses
         (map (fun p => probe_status default_URLChecker (init_ua None)
                          example_world (fst p) (snd p))
              (combine (seq 0 0) [])).
Proof.
  apply (check_file_reaches_export default_URLChecker (init_ua None)
           (fun _ => Ok example_document) example_stem example_write
           example_world example_world
           [1%nat] [] "m1.json"
           [PStr "m1"; PStr "m1"] [PStr "http://x/200"; PStr "http://x/404"]
           [] []).
  - reflexivity.
  - reflexivity.
  - left. discriminate.
Defined.

(** X15. In the program's own flow the end-of-batch progress line is always
    written: with a pool of at least one worker, a non-empty URL list
    returned by [read_urls] loses no entry to the [if url] filter of
    [process_urls], so it gets one status per URL and its last progress
    line reports the whole batch. *)
Theorem extracted_urls_fully_processed :
  forall (self : JSONReader) (load : string -> res pyval)
         (im iu am au : list pyval)
         (url_checker : URLChecker) (ua : ua_global) (w : World)
         (sched : list nat) (urls : list pyval),
    0 < max_workers url_checker ->
    read_urls self load = Ok (im, iu, am, au) ->
    urls = iu \/ urls = au ->
    urls <> [] ->
    exists statuses written,
      process_urls url_checker ua w sched urls = Ok (statuses, written)
      /\ length statuses = length urls
      /\ last written "" = progress_message (Z.of_nat (length urls)) urls.
Proof.
  intros self load im iu am au c ua w sched urls Hn E Hsel Hne.
  destruct (read_urls_paired _ _ _ _ _ _ E) as [Hi Ha].
  assert (Hf : filter truthy urls = urls).
  { destruct Hsel as [->| ->]; eapply paired_filter; eassumption. }
  eexists. eexists. split; [apply (process_urls_closed_form _ _ _ _ _ Hn)|]. split.
  - rewrite length_map, completed_length, Hf. reflexivity.
  - rewrite Hf. apply last_progress_count. exact Hne.
Qed.

Lemma extracted_urls_fully_processed_witness :
  exists statuses written,
    process_urls default_URLChecker (init_ua None) example_world [1%nat]
                 [PStr "http://x/200"; PStr "http://x/404"]
    = Ok (statuses, written)
    /\ length statuses = length [PStr "http://x/200"; PStr "http://x/404"]
    /\ last written ""
       = progress_message
           (Z.of_nat (length [PStr "http://x/200"; PStr "http://x/404"]))
           [PStr "http://x/200"; PStr "http://x/404"].
Proof.
  apply (extracted_urls_fully_processed (mk_JSONReader "m1.json")
           (fun _ => Ok example_document)
           [PStr "m1"; PStr "m1"] [PStr "http://x/200"; PStr "http://x/404"]
           [] []).
  - reflexivity.
  - reflexivity.
  - left. reflexivity.
  - discriminate.
Defined.

(* ================================================================== *)
(** ** The run over all uploaded files: [check_files] *)

Section CheckFiles.

Variables (ua : ua_global) (load : string -> res pyval)
          (stem : string -> string) (runs : nat -> batch_run).

Lemma check_files_returning (json_files : list string) :
  forall (n : nat) (results : list (string * list (string * list row))),
    (forall (i : nat) (json_file : string),
        nth_error json_files i = Some json_file ->
        exists r, file_outcome ua load stem runs (n + i) json_file = Ok r) ->
    exists added,
      check_files ua load stem runs n json_files results = Ok (results ++ added)
      /\ map fst added
         = map (output_file_name stem) (filter (has_urls load) json_files).
Proof.
  induction json_files as [|json_file rest IH]; intros n results Hret.
  - exists []. rewrite app_nil_r. split; reflexivity.
  - destruct (Hret 0%nat json_file eq_refl) as [r Hr].
    rewrite Nat.add_0_r in Hr. unfold file_outcome in Hr.
    pose proof (check_file_result _ _ _ _ _ _ _ _ _ _ _ Hr) as Hkind.
    assert (Hrest : forall (i : nat) (f : string),
               nth_error rest i = Some f ->
               exists r', file_outcome ua load stem runs (S n + i) f = Ok r').
    { intros i f Hi. replace (S n + i)%nat with (n + S i)%nat by lia.
      apply (Hret (S i)). exact Hi. }
    cbn [check_files filter]. rewrite Hr. cbn [bind].
    destruct (has_urls load json_file).
    + destruct Hkind as [book ->].
      destruct (IH (S n) (results ++ [(output_file_name stem json_file, book)])
                  Hrest) as [added [Hrun Hnames]].
      exists ((output_file_name stem json_file, book) :: added).
      rewrite Hrun, <- app_assoc. split; [reflexivity|].
      cbn [map fst]. rewrite Hnames. reflexivity.
    + subst r. apply (IH (S n) results Hrest).
Qed.

Lemma check_files_raising (before : list string) (bad : string) (e : exn) :
  read_urls (mk_JSONReader bad) load = Raise e ->
  forall (after : list string) (n : nat)
         (results : list (string * list (string * list row))),
    (forall (i : nat) (json_file : string),
        nth_error before i = Some json_file ->
        exists r, file_outcome ua load stem runs (n + i) json_file = Ok r) ->
    check_files ua load stem runs n (before ++ bad :: after) results = Raise e.
Proof.
  intros Hbad after.
  induction before as [|json_file rest IH]; intros n results Hret.
  - cbn [app check_files].
    rewrite (check_file_raise _ _ _ _ _ _ _ _ _ _ _ Hbad). reflexivity.
  - destruct (Hret 0%nat json_file eq_refl) as [r Hr].
    rewrite Nat.add_0_r in Hr. unfold file_outcome in Hr.
    assert (Hrest : forall (i : nat) (f : string),
               nth_error rest i = Some f ->
               exists r', file_outcome ua load stem runs (S n + i) f = Ok r').
    { intros i f Hi. replace (S n + i)%nat with (n + S i)%nat by lia.
      apply (Hret (S i)). exact Hi. }
    cbn [app check_files]. rewrite Hr. cbn [bind].
    destruct r; apply (IH _ _ Hrest).
Qed.

End CheckFiles.

(** X16. When processing no uploaded file raises (each file is read and
    its workbook, if any, is accepted by the writer), the run returns one
    result per uploaded file that holds at least one URL, in upload order,
    each named after its input with "_results.xlsx"; the archive lists
    exactly these names and is not made at all when no file holds a URL. *)
Theorem check_files_results :
  forall (ua : ua_global) (load : string -> res pyval) (stem : string -> string)
         (runs : nat -> batch_run) (json_files : list string),
    (forall (i : nat) (json_file : string),
        nth_error json_files i = Some json_file ->
        exists r, file_outcome ua load stem runs i json_file = Ok r) ->
    exists results,
      check_files ua load stem runs 0 json_files [] = Ok results
      /\ map fst results
         = map (output_file_name stem) (filter (has_urls load) json_files)
      /\ all_results_zip results
         = match filter (has_urls load) json_files with
           | [] => None
           | kept => Some (map (output_file_name stem) kept)
           end.
Proof.
  intros ua load stem runs json_files Hret.
  destruct (check_files_returning ua load stem runs json_files 0%nat [] Hret)
    as [added [Hrun Hnames]].
  exists added. refine (conj Hrun (conj Hnames _)).
  unfold all_results_zip.
  destruct added as [|r added];
    destruct (filter (has_urls load) json_files) as [|k kept];
    try discriminate Hnames; [reflexivity|].
  rewrite Hnames. reflexivity.
Qed.

Lemma check_files_results_witness :
  exists results,
    check_files (init_ua None)
      (fun path => if (path =? "temp/m1.json")%string
                   then Ok example_document
                   else Raise (mk_exn JSONDecodeError "Expecting value"))
      example_stem
      (fun _ => mk_batch_run example_world example_world [1%nat] []
                             example_write)
      0 ["temp/broken.json"; "temp/m1.json"] []
    = Ok results
    /\ map fst results = ["m1_results.xlsx"]
    /\ all_results_zip results = Some ["m1_results.xlsx"].
Proof.
  apply (check_files_results (init_ua None)
           (fun path => if (path =? "temp/m1.json")%string
                        then Ok example_document
                        else Raise (mk_exn JSONDecodeError "Expecting value"))
           example_stem
           (fun _ => mk_batch_run example_world example_world [1%nat] []
                                  example_write)
           ["temp/broken.json"; "temp/m1.json"]).
  intros i json_file H.
  destruct i as [|[|i]]; cbn in H.
  - injection H as <-. eexists. vm_compute. reflexivity.
  - injection H as <-. eexists. vm_compute. reflexivity.
  - destruct i; discriminate H.
Defined.

(** X17. If [read_urls] raises on an uploaded file while processing each
    file before it returned, the run over the files raises that exception,
    whatever files follow: no list of results is returned, so no archive
    is made. *)
Theorem check_files_aborts_on_unreadable_file :
  forall (ua : ua_global) (load : string -> res pyval) (stem : string -> string)
         (runs : nat -> batch_run) (before : list string) (bad : string)
         (after : list string) (e : exn),
    (forall (i : nat) (json_file : string),
        nth_error before i = Some json_file ->
        exists r, file_outcome ua load stem runs i json_file = Ok r) ->
    read_urls (mk_JSONReader bad) load = Raise e ->
    check_files ua load stem runs 0 (before ++ bad :: after) [] = Raise e.
Proof.
  intros ua load stem runs before bad after e Hret Hbad.
  apply check_files_raising; assumption.
Qed.

Lemma check_files_aborts_on_unreadable_file_witness :
  check_files (init_ua None)
    (fun path => if (path =? "temp/m1.json")%string
                 then Ok example_document
                 else Ok (PList [ PDict [ ("images", PNone) ] ]))
    example_stem
    (fun _ => mk_batch_run example_world example_world [] [] example_write)
    0 (["temp/m1.json"] ++ "temp/null.json" :: ["temp/m1.json"]) []
  = Raise (mk_exn TypeError "'NoneType' object is not iterable").
Proof.
  apply (check_files_aborts_on_unreadable_file (init_ua None)
           (fun path => if (path =? "temp/m1.json")%string
                        then Ok example_document
                        else Ok (PList [ PDict [ ("images", PNone) ] ]))
           example_stem
           (fun _ => mk_batch_run example_world example_world [] []
                                  example_write)
           ["temp/m1.json"] "temp/null.json" ["temp/m1.json"]).
  - intros i json_file H. destruct i as [|i]; cbn in H.
    + injection H as <-. eexists. vm_compute. reflexivity.
    + destruct i; discriminate H.
  - reflexivity.
Defined.

(* ================================================================== *)
(** ** Probing and exporting a list that still holds empty URLs *)

Lemma filter_shorter {A : Type} (f : A -> bool) (l : list A) :
  forallb f l = false -> (length (filter f l) < length l)%nat.
Proof.
  induction l as [|x l IH]; cbn [forallb filter length]; [discriminate|].
  intros H. destruct (f x); cbn [andb length] in *.
  - apply IH in H. lia.
  - pose proof (filter_length_le f l). lia.
Qed.

(** X18. With a pool of at least one worker, [process_urls] returns fewer
    statuses than it was given URLs as soon as one URL is empty, and the
    data frame of the exporter then cannot be built from the unfiltered
    URL list and these statuses, whatever labels come with it. *)
Theorem filtered_urls_break_export :
  forall (self : URLChecker) (ua : ua_global) (w : World) (sched : list nat)
         (url_list : list pyval),
    0 < max_workers self ->
    forallb truthy url_list = false ->
    exists statuses written,
      process_urls self ua w sched url_list = Ok (statuses, written)
      /\ (length statuses < length url_list)%nat
      /\ forall models : list pyval,
           DataFrame models url_list statuses
           = Raise (mk_exn ValueError "All arrays must be of the same length").
Proof.
  intros self ua w sched url_list Hn Hsome.
  eexists. eexists. split; [apply (process_urls_closed_form _ _ _ _ _ Hn)|].
  assert (Hlt : (length (map recorded_status
                          (as_completed sched
                             (map fst (submit_all self ua w 0 url_list))))
                 < length url_list)%nat).
  { rewrite length_map, completed_length. apply filter_shorter. exact Hsome. }
  split; [exact Hlt|]. intros models. unfold DataFrame.
  replace (length url_list =? _)%nat with false;
    [rewrite andb_false_r; reflexivity|].
  symmetry. apply Nat.eqb_neq. lia.
Qed.

Lemma filtered_urls_break_export_witness :
  exists statuses written,
    process_urls default_URLChecker (init_ua None) example_world []
                 [PStr "http://x/200"; PStr ""]
    = Ok (statuses, written)
    /\ (length statuses < length [PStr "http://x/200"; PStr ""])%nat
    /\ forall models : list pyval,
         DataFrame models [PStr "http://x/200"; PStr ""] statuses
         = Raise (mk_exn ValueError "All arrays must be of the same length").
Proof.
  apply (filtered_urls_break_export default_URLChecker (init_ua None)
           example_world [] [PStr "http://x/200"; PStr ""]).
  - reflexivity.
  - reflexivity.
Defined.
